(** * The Snowflake UDF resource: statement builder and identifier codec

    A shallow embedding of [pkg/snowflake/udf.go] (the SQL statement builder)
    and of [pkg/resources/udf.go] (the persisted identifier and the CRUD entry
    points), with the properties of the specification stated over it.

    Go strings are byte sequences: they are embedded as [string], whose
    characters are the bytes.  Go's [(T, error)] results are embedded as
    [result T]. *)

From Stdlib Require Import String Ascii List Bool Arith Lia.
Import ListNotations.

Local Open Scope list_scope.
Local Open Scope string_scope.

(* ================================================================== *)
(** ** Errors and results *)

(** The error values the two packages produce or compare against. *)
Inductive error : Type :=
| errorString (msg : string)            (* errors.New, fmt.Errorf *)
| ErrNoRows                             (* sql.ErrNoRows *)
| driverError (msg : string)            (* any other failure of the driver *)
| Wrapf (cause : error) (msg : string)  (* errors.Wrapf *).

Inductive result (A : Type) : Type :=
| Ok (a : A)
| Err (e : error).

Arguments Ok {A} a.
Arguments Err {A} e.

Definition isErr {A : Type} (r : result A) : bool :=
  match r with
  | Ok _ => false
  | Err _ => true
  end.

(* ================================================================== *)
(** ** Bytes with a role in the SQL templates and in the CSV grammar *)

Definition DQ : ascii := "034"%char.   (* the double quote *)
Definition LF : ascii := "010"%char.   (* \n *)
Definition CR : ascii := "013"%char.   (* \r *)
Definition PIPE : ascii := "|"%char.

(** One-byte string. *)
Definition str (c : ascii) : string := String c EmptyString.

(** [quoted s] is [s] between two double quotes, as the Go formats of the
    builder write a quoted component. *)
Definition quoted (s : string) : string := str DQ ++ s ++ str DQ.

(* ================================================================== *)
(** ** Package [snowflake]: the statement builder *)

Module snowflake.

(** [type Argument struct { name string; _type string }] *)
Module Argument.
Record t : Type := mk { name : string; _type : string }.
End Argument.
Abbreviation Argument := Argument.t.

(** [type Arguments []Argument] *)
Definition Arguments : Type := list Argument.

(** [type UdfBuilder struct] *)
Record UdfBuilder : Type := mkUdfBuilder {
  name : string;
  db : string;
  schema : string;
  replace : bool;
  secure : bool;
  language : string;
  returnType : string;
  arguments : Arguments;
  body : string
}.

(** [Udf(name)] : every other field has Go's zero value. *)
Definition Udf (n : string) : UdfBuilder :=
  {| name := n; db := EmptyString; schema := EmptyString;
     replace := false; secure := false;
     language := EmptyString; returnType := EmptyString;
     arguments := []; body := EmptyString |}.

(** The setters mutate the receiver and return it; here they return the
    updated builder. *)
Definition WithLanguage (c : string) (vb : UdfBuilder) : UdfBuilder :=
  {| name := name vb; db := db vb; schema := schema vb;
     replace := replace vb; secure := secure vb;
     language := c; returnType := returnType vb;
     arguments := arguments vb; body := body vb |}.

Definition WithDB (d : string) (vb : UdfBuilder) : UdfBuilder :=
  {| name := name vb; db := d; schema := schema vb;
     replace := replace vb; secure := secure vb;
     language := language vb; returnType := returnType vb;
     arguments := arguments vb; body := body vb |}.

Definition WithArguments (args : Arguments) (vb : UdfBuilder) : UdfBuilder :=
  {| name := name vb; db := db vb; schema := schema vb;
     replace := replace vb; secure := secure vb;
     language := language vb; returnType := returnType vb;
     arguments := args; body := body vb |}.

Definition WithReplace (vb : UdfBuilder) : UdfBuilder :=
  {| name := name vb; db := db vb; schema := schema vb;
     replace := true; secure := secure vb;
     language := language vb; returnType := returnType vb;
     arguments := arguments vb; body := body vb |}.

Definition WithSecure (vb : UdfBuilder) : UdfBuilder :=
  {| name := name vb; db := db vb; schema := schema vb;
     replace := replace vb; secure := true;
     language := language vb; returnType := returnType vb;
     arguments := arguments vb; body := body vb |}.

Definition WithSchema (s : string) (vb : UdfBuilder) : UdfBuilder :=
  {| name := name vb; db := db vb; schema := s;
     replace := replace vb; secure := secure vb;
     language := language vb; returnType := returnType vb;
     arguments := arguments vb; body := body vb |}.

Definition WithReturnType (s : string) (vb : UdfBuilder) : UdfBuilder :=
  {| name := name vb; db := db vb; schema := schema vb;
     replace := replace vb; secure := secure vb;
     language := language vb; returnType := s;
     arguments := arguments vb; body := body vb |}.

Definition WithBody (s : string) (vb : UdfBuilder) : UdfBuilder :=
  {| name := name vb; db := db vb; schema := schema vb;
     replace := replace vb; secure := secure vb;
     language := language vb; returnType := returnType vb;
     arguments := arguments vb; body := s |}.

(** The assignment [vb.name = newName] of [Rename]. *)
Definition setName (n : string) (vb : UdfBuilder) : UdfBuilder :=
  {| name := n; db := db vb; schema := schema vb;
     replace := replace vb; secure := secure vb;
     language := language vb; returnType := returnType vb;
     arguments := arguments vb; body := body vb |}.

Definition missingScope : error :=
  errorString "Functions must specify a database and a schema".

(** [QualifiedName]: the format quotes each of the three components and
    joins them with dots; the components are its arguments as they are. *)
Definition QualifiedName (vb : UdfBuilder) : result string :=
  if (db vb =? EmptyString) || (schema vb =? EmptyString) then
    Err missingScope
  else
    Ok (quoted (db vb) ++ "." ++ quoted (schema vb) ++ "." ++ quoted (name vb)).

(** [Show]: one format, its arguments the three fields as they are. *)
Definition Show (vb : UdfBuilder) : string :=
  "SHOW FUNCTIONS LIKE '" ++ name vb ++ "' IN SCHEMA "
    ++ quoted (db vb) ++ "." ++ quoted (schema vb).

Section Escaping.

(** [EscapeString] lives in a file of the package that is not part of the
    sources at hand: the builder is parametric in it. *)
Variable EscapeString : string -> string.

(** The quoted name, a space, the type. *)
Definition getArgumentDefinition (c : Argument) : string :=
  quoted (EscapeString (Argument.name c)) ++ " " ++ EscapeString (Argument._type c).

Definition getArgumentTypeDefinition (c : Argument) : string :=
  EscapeString (Argument._type c).

(** The loops append one definition per argument, in order;
    [String.concat] is [strings.Join]. *)
Definition getArgumentDefinitions (args : Arguments) : string :=
  let definitions :=
    fold_left (fun defs column => (defs ++ [getArgumentDefinition column])%list) args [] in
  "(" ++ String.concat ", " definitions ++ ")".

Definition getArgumentTypesDefinitions (args : Arguments) : string :=
  let definitions :=
    fold_left (fun defs column => (defs ++ [getArgumentTypeDefinition column])%list) args [] in
  "(" ++ String.concat ", " definitions ++ ")".

(** [Create]: [q] is the [strings.Builder], each [let] one [WriteString]. *)
Definition Create (vb : UdfBuilder) : result string :=
  let q := EmptyString in
  let q := q ++ "CREATE" in
  let q := if replace vb then q ++ " OR REPLACE" else q in
  let q := if secure vb then q ++ " SECURE" else q in
  match QualifiedName vb with
  | Err e => Err e
  | Ok qn =>
      let q := q ++ (" FUNCTION " ++ qn) in
      let q := q ++ (" " ++ getArgumentDefinitions (arguments vb)) in
      let q := if returnType vb =? EmptyString then q
               else q ++ (" RETURNS " ++ EscapeString (returnType vb)) in
      let q := if language vb =? EmptyString then q
               else q ++ (" LANGUAGE " ++ EscapeString (language vb)) in
      let q := q ++ (" AS $$ " ++ body vb ++ " $$") in
      Ok q
  end.

(** [Rename] assigns the new name between the two calls of [QualifiedName]:
    the builder after the call is returned with the result. *)
Definition Rename (newName : string) (vb : UdfBuilder) : UdfBuilder * result string :=
  match QualifiedName vb with
  | Err e => (vb, Err e)
  | Ok oldName =>
      let vb := setName newName vb in
      match QualifiedName vb with
      | Err e => (vb, Err e)
      | Ok qn =>
          let dataTypes := getArgumentTypesDefinitions (arguments vb) in
          (vb, Ok ("ALTER FUNCTION " ++ oldName ++ " " ++ dataTypes
                     ++ " RENAME TO " ++ qn))
      end
  end.

Definition Secure (vb : UdfBuilder) : result string :=
  match QualifiedName vb with
  | Err e => Err e
  | Ok qn =>
      let dataTypes := getArgumentTypesDefinitions (arguments vb) in
      Ok ("ALTER FUNCTION " ++ qn ++ " " ++ dataTypes ++ " SET SECURE")
  end.

Definition Unsecure (vb : UdfBuilder) : result string :=
  match QualifiedName vb with
  | Err e => Err e
  | Ok qn =>
      let dataTypes := getArgumentTypesDefinitions (arguments vb) in
      Ok ("ALTER FUNCTION " ++ qn ++ " " ++ dataTypes ++ " UNSET SECURE")
  end.

Definition Drop (vb : UdfBuilder) : result string :=
  match QualifiedName vb with
  | Err e => Err e
  | Ok qn =>
      let dataTypes := getArgumentTypesDefinitions (arguments vb) in
      Ok ("DROP FUNCTION " ++ qn ++ " " ++ dataTypes)
  end.

End Escaping.

(** The row [ScanUdf] fills; a [sql.NullString] is an optional string. *)
Record udf : Type := mkudf {
  Comment : option string;
  IsSecure : bool;
  Name : option string;
  SchemaName : option string;
  Language : option string;
  Arguments_ : option string;
  DatabaseName : option string
}.

End snowflake.

(* ================================================================== *)
(** ** Go's [unicode], [strings] and [encoding/csv], as far as the identifier
       codec calls them

    These are the standard library's functions, embedded on bytes.  A rune is
    met only through two questions: is the first (last) rune of a string
    white space, and how many bytes does it take.  A UTF-8 sequence decodes to
    a code point exactly when it is that code point's encoding, and a
    malformed sequence decodes to the replacement rune, which is no white
    space; so both questions are answered by comparing with the encodings of
    the white-space code points. *)

Module unicode.

Definition B (n : nat) : ascii := ascii_of_nat n.
Definition enc2 (a b : nat) : string := String (B a) (str (B b)).
Definition enc3 (a b c : nat) : string := String (B a) (enc2 b c).

(** The encodings of the code points of [unicode.IsSpace]: U+0009..U+000D,
    U+0020, U+0085, U+00A0, U+1680, U+2000..U+200A, U+2028, U+2029, U+202F,
    U+205F, U+3000. *)
Definition spaceRunes : list string :=
  [ str (B 9); str (B 10); str (B 11); str (B 12); str (B 13); str (B 32);
    enc2 194 133; enc2 194 160;
    enc3 225 154 128;
    enc3 226 128 128; enc3 226 128 129; enc3 226 128 130; enc3 226 128 131;
    enc3 226 128 132; enc3 226 128 133; enc3 226 128 134; enc3 226 128 135;
    enc3 226 128 136; enc3 226 128 137; enc3 226 128 138;
    enc3 226 128 168; enc3 226 128 169; enc3 226 128 175;
    enc3 226 129 159;
    enc3 227 128 128 ].

End unicode.

Module strings.

Fixpoint rev (s : string) : string :=
  match s with
  | EmptyString => EmptyString
  | String c r => rev r ++ str c
  end.

(** [s[n:]] *)
Fixpoint skip (n : nat) (s : string) : string :=
  match n, s with
  | S k, String _ r => skip k r
  | _, _ => s
  end.

(** [strings.HasPrefix] *)
Fixpoint HasPrefix (s p : string) {struct p} : bool :=
  match p with
  | EmptyString => true
  | String a p' =>
      match s with
      | EmptyString => false
      | String b s' => (a =? b)%char && HasPrefix s' p'
      end
  end.

(** The encoding among [pats] that [s] starts with, if any. *)
Definition leading (pats : list string) (s : string) : option string :=
  find (fun p => HasPrefix s p) pats.

(** Remove from the left, one after the other, the runes of [pats]. *)
Fixpoint trimLeft (pats : list string) (fuel : nat) (s : string) : string :=
  match fuel with
  | O => s
  | S k =>
      match leading pats s with
      | Some p => trimLeft pats k (skip (String.length p) s)
      | None => s
      end
  end.

(** [strings.TrimSpace]: all leading and trailing white space removed.  The
    trailing runes are read backwards: on the reversed string they are the
    reversed encodings. *)
Definition TrimSpace (s : string) : string :=
  let s1 := trimLeft unicode.spaceRunes (String.length s) s in
  rev (trimLeft (map rev unicode.spaceRunes) (String.length s1) (rev s1)).

(** Is the first rune of [s] white space
    ([unicode.IsSpace] of [utf8.DecodeRuneInString]). *)
Definition firstRuneIsSpace (s : string) : bool :=
  match leading unicode.spaceRunes s with
  | Some _ => true
  | None => false
  end.

(** Is the last rune of [s] white space. *)
Definition lastRuneIsSpace (s : string) : bool :=
  match leading (map rev unicode.spaceRunes) (rev s) with
  | Some _ => true
  | None => false
  end.

(** Does the byte [c] occur in [s] ([strings.IndexByte(s, c) >= 0]). *)
Fixpoint containsByte (c : ascii) (s : string) : bool :=
  match s with
  | EmptyString => false
  | String x r => (x =? c)%char || containsByte c r
  end.

(** [i := IndexByte(s, c)] with the two slices [s[:i]] and [s[i+1:]];
    [None] when [c] does not occur. *)
Fixpoint cutAt (c : ascii) (s : string) : option (string * string) :=
  match s with
  | EmptyString => None
  | String x r =>
      if (x =? c)%char then Some (EmptyString, r)
      else match cutAt c r with
           | Some (a, b) => Some (String x a, b)
           | None => None
           end
  end.

(** [strings.ReplaceAll(s, old, new)] for a non-empty [old], the case of the
    one call in the package: the occurrences of [old] are replaced from left
    to right and do not overlap.  [pending] counts the bytes of an occurrence
    still to pass over.  (With an empty [old] the Go function inserts [new]
    around every rune; this definition does not give that case.) *)
Fixpoint replaceFrom (pending : nat) (s old new : string) : string :=
  match s with
  | EmptyString => EmptyString
  | String c r =>
      match pending with
      | S k => replaceFrom k r old new
      | O =>
          if HasPrefix s old
          then new ++ replaceFrom (String.length old - 1) r old new
          else String c (replaceFrom O r old new)
      end
  end.

Definition ReplaceAll (s old new : string) : string := replaceFrom O s old new.

Fixpoint dropWhile (f : ascii -> bool) (s : string) : string :=
  match s with
  | EmptyString => EmptyString
  | String c r => if f c then dropWhile f r else s
  end.

(** [strings.TrimRight(s, cutset)] for a cutset of ASCII bytes: the bytes of
    the cutset are removed from the end of [s], one after the other. *)
Definition TrimRight (s cutset : string) : string :=
  rev (dropWhile (fun c => containsByte c cutset) (rev s)).

End strings.

Module csv.

(** The errors of the package.  [fuelExhausted] is no Go error: it is what
    the bounded recursions below answer past their bound, and [ReadAll] never
    answers it (lemma [ReadAll_in_bound]). *)
Inductive ParseError : Type :=
| ErrBareQuote
| ErrQuote
| ErrFieldCount
| errInvalidDelim
| fuelExhausted.

(** [validDelim], for a delimiter of one byte. *)
Definition validDelim (r : ascii) : bool :=
  negb (r =? zero)%char && negb (r =? DQ)%char && negb (r =? CR)%char
  && negb (r =? LF)%char && (nat_of_ascii r <? 128)%nat.

(** [len(b) > 0 && b[len(b)-1] == '\n'] *)
Fixpoint endsWithLF (b : string) : bool :=
  match b with
  | EmptyString => false
  | String c EmptyString => (c =? LF)%char
  | String _ r => endsWithLF r
  end.

Definition lengthNL (b : string) : nat := if endsWithLF b then 1 else 0.

(** [s[:n]] *)
Definition take (n : nat) (s : string) : string := substring 0 n s.

Section Delimiter.

(** The field [Comma] of a [Writer] and of a [Reader]; every other field
    keeps its default: no comment rune, no lazy quotes, no trimming of
    leading space, [FieldsPerRecord] 0, [UseCRLF] false. *)
Variable Comma : ascii.

(* ------------------------------------------------------------------ *)
(** *** Writer *)

Definition special (c : ascii) : bool :=
  (c =? LF)%char || (c =? CR)%char || (c =? DQ)%char || (c =? Comma)%char.

Fixpoint anyByte (f : ascii -> bool) (s : string) : bool :=
  match s with
  | EmptyString => false
  | String c r => f c || anyByte f r
  end.

Definition fieldNeedsQuotes (field : string) : bool :=
  if field =? EmptyString then false
  else if field =? "\." then true
  else if anyByte special field then true
  else strings.firstRuneIsSpace field.

(** The loop that copies a quoted field: a quote is doubled, and with
    [UseCRLF] false a carriage return and a newline are copied as they are,
    like every other byte. *)
Fixpoint writeQuoted (field : string) : string :=
  match field with
  | EmptyString => EmptyString
  | String c r =>
      (if (c =? DQ)%char then String DQ (str DQ)
       else if (c =? CR)%char then str CR
       else if (c =? LF)%char then str LF
       else str c) ++ writeQuoted r
  end.

Definition writeField (field : string) : string :=
  if fieldNeedsQuotes field then str DQ ++ writeQuoted field ++ str DQ
  else field.

(** The loop over the fields of a record; [n] is the index of the loop. *)
Fixpoint writeFields (n : nat) (record : list string) : string :=
  match record with
  | [] => EmptyString
  | field :: more =>
      (if (0 <? n)%nat then str Comma else EmptyString)
        ++ writeField field ++ writeFields (S n) more
  end.

(** [Writer.Write] into a buffer that never fails: the bytes written. *)
Definition Write (record : list string) : ParseError + string :=
  if negb (validDelim Comma) then inl errInvalidDelim
  else inr (writeFields 0 record ++ str LF).

Fixpoint WriteAll (records : list (list string)) : ParseError + string :=
  match records with
  | [] => inr EmptyString
  | record :: more =>
      match Write record with
      | inl e => inl e
      | inr out =>
          match WriteAll more with
          | inl e => inl e
          | inr out' => inr (out ++ out')
          end
      end
  end.

(* ------------------------------------------------------------------ *)
(** *** Reader *)

(** [ReadSlice('\n')] on what is left of the input: the bytes up to and
    including the first newline, what follows, and whether the end of the
    input was met first ([io.EOF]). *)
Fixpoint ReadSlice (s : string) : string * string * bool :=
  match s with
  | EmptyString => (EmptyString, EmptyString, true)
  | String c r =>
      if (c =? LF)%char then (str LF, r, false)
      else let '(l, r', eof) := ReadSlice r in (String c l, r', eof)
  end.

(** [if line[len(line)-1] == '\r' { line = line[:len(line)-1] }] *)
Fixpoint dropTrailingCR (line : string) : string :=
  match line with
  | EmptyString => EmptyString
  | String c r =>
      if (c =? CR)%char && (r =? EmptyString) then EmptyString
      else String c (dropTrailingCR r)
  end.

(** A line that ends with a carriage return and a newline ends with the
    newline alone. *)
Fixpoint normalizeCRLF (line : string) : string :=
  match line with
  | EmptyString => EmptyString
  | String c r =>
      if (c =? CR)%char && (r =? str LF) then str LF
      else String c (normalizeCRLF r)
  end.

(** [readLine]: the next line, the input after it, and [io.EOF]. *)
Definition readLine (input : string) : string * string * bool :=
  let '(line, rest, eof) := ReadSlice input in
  let '(line, eof) :=
    if negb (line =? EmptyString) && eof then (dropTrailingCR line, false)
    else (line, eof) in
  (normalizeCRLF line, rest, eof).

(** How the loop over a quoted field is left. *)
Inductive quotedOutcome : Type :=
| qContinue (field line rest : string)   (* quote then delimiter *)
| qBreak (field rest : string)           (* quote then end of line *)
| qError (e : ParseError).

(** The loop of a quoted field; [line] is past the opening quote and [buf]
    holds the bytes of the field read so far. *)
Fixpoint quotedField (fuel : nat) (buf line rest : string) : quotedOutcome :=
  match fuel with
  | O => qError fuelExhausted
  | S k =>
      match strings.cutAt DQ line with
      | Some (pre, line) =>
          let buf := buf ++ pre in
          match line with
          | String c line' =>
              if (c =? DQ)%char then quotedField k (buf ++ str DQ) line' rest
              else if (c =? Comma)%char then qContinue buf line' rest
              else if (lengthNL line =? String.length line)%nat then qBreak buf rest
              else qError ErrQuote
          | EmptyString => qBreak buf rest
          end
      | None =>
          if negb (line =? EmptyString) then
            let buf := buf ++ line in
            let '(line, rest, _) := readLine rest in
            quotedField k buf line rest
          else qError ErrQuote
      end
  end.

Inductive recordOutcome : Type :=
| rEOF
| rRecord (fields : list string) (rest : string)
| rError (e : ParseError).

Definition startsWithDQ (line : string) : bool :=
  match line with
  | String c _ => (c =? DQ)%char
  | EmptyString => false
  end.

(** The loop [parseField]; [bound] is the bound of the inner loop. *)
Fixpoint parseField (bound fuel : nat) (fields : list string)
    (line rest : string) : recordOutcome :=
  match fuel with
  | O => rError fuelExhausted
  | S k =>
      if negb (startsWithDQ line) then
        match strings.cutAt Comma line with
        | Some (field, line') =>
            if strings.containsByte DQ field then rError ErrBareQuote
            else parseField bound k (fields ++ [field])%list line' rest
        | None =>
            let field := take (String.length line - lengthNL line) line in
            if strings.containsByte DQ field then rError ErrBareQuote
            else rRecord (fields ++ [field])%list rest
        end
      else
        match quotedField bound EmptyString (strings.skip 1 line) rest with
        | qContinue field line' rest' =>
            parseField bound k (fields ++ [field])%list line' rest'
        | qBreak field rest' => rRecord (fields ++ [field])%list rest'
        | qError e => rError e
        end
  end.

(** [readRecord] up to the check of the number of fields: empty lines are
    passed over, then the fields of one record are read. *)
Fixpoint readRecord (bound fuel : nat) (input : string) : recordOutcome :=
  match fuel with
  | O => rError fuelExhausted
  | S k =>
      if negb (validDelim Comma) then rError errInvalidDelim
      else
        let '(line, rest, eof) := readLine input in
        if eof then rEOF
        else if (String.length line =? lengthNL line)%nat then readRecord bound k rest
        else parseField bound bound [] line rest
  end.

(** The end of [readRecord]: the first record sets [FieldsPerRecord], the
    later ones are checked against it. *)
Definition checkFieldCount (FieldsPerRecord : nat) (out : recordOutcome)
  : nat * recordOutcome :=
  match out with
  | rRecord dst rest =>
      if (0 <? FieldsPerRecord)%nat then
        if negb (List.length dst =? FieldsPerRecord)%nat
        then (FieldsPerRecord, rError ErrFieldCount)
        else (FieldsPerRecord, out)
      else (List.length dst, out)
  | _ => (FieldsPerRecord, out)
  end.

Fixpoint readAll (bound fuel FieldsPerRecord : nat) (input : string)
    (records : list (list string)) : ParseError + list (list string) :=
  match fuel with
  | O => inl fuelExhausted
  | S k =>
      match checkFieldCount FieldsPerRecord (readRecord bound bound input) with
      | (_, rEOF) => inr records
      | (_, rError e) => inl e
      | (n, rRecord record rest) =>
          readAll bound k n rest (records ++ [record])%list
      end
  end.

(** [Reader.ReadAll] on the string [input]. *)
Definition ReadAll (input : string) : ParseError + list (list string) :=
  let bound := S (S (String.length input)) in
  readAll bound bound 0 input [].

End Delimiter.

End csv.

(* ================================================================== *)
(** ** Package [resources]: the persisted identifier and the CRUD functions *)

Module resources.

(** Modelled from the spec: the constant [pipeIDDelimiter] is declared in a
    file of the package that is not among the sources.  The spec gives the
    delimiter of the persisted identifier: the single character [|], the
    one [udfID.String] sets on its writer. *)
Definition pipeIDDelimiter : ascii := PIPE.

(** [type udfID struct] *)
Record udfID : Type := mkudfID {
  DatabaseName : string;
  SchemaName : string;
  Name : string
}.

(** The method [String] of [udfID].  The writer's only error is an invalid
    delimiter. *)
Definition udfID_String (si : udfID) : result string :=
  let dataIdentifiers := [[DatabaseName si; SchemaName si; Name si]] in
  match csv.WriteAll PIPE dataIdentifiers with
  | inl _ => Err (errorString "csv: invalid field or comment delimiter")
  | inr buf => Ok (strings.TrimSpace buf)
  end.

Definition udfIDFromString (stringID : string) : result udfID :=
  match csv.ReadAll pipeIDDelimiter stringID with
  | inl _ => Err (errorString "Not CSV compatible")
  | inr lines =>
      if negb (List.length lines =? 1)%nat then
        Err (errorString "1 line per pipe")
      else if negb (List.length (nth 0 lines []) =? 3)%nat then
        Err (errorString "3 fields allowed")
      else
        Ok {| DatabaseName := nth 0 (nth 0 lines []) EmptyString;
              SchemaName := nth 1 (nth 0 lines []) EmptyString;
              Name := nth 2 (nth 0 lines []) EmptyString |}
  end.

(** What the functions below read and write of a [schema.ResourceData]: the
    identifier, the value of each key of [udfSchema], and the keys for which
    [HasChange] answers true. *)
Record ResourceData : Type := mkResourceData {
  Id : string;
  name : string;
  database : string;
  schema : string;
  or_replace : bool;
  is_secure : bool;
  return_type : string;
  language : string;
  argument : list (string * string);   (* name and type of each argument *)
  body : string;
  HasChange : string -> bool
}.

Definition SetId (v : string) (d : ResourceData) : ResourceData :=
  {| Id := v; name := name d; database := database d; schema := schema d;
     or_replace := or_replace d; is_secure := is_secure d;
     return_type := return_type d; language := language d;
     argument := argument d; body := body d; HasChange := HasChange d |}.

(** The five calls of [d.Set] at the end of [ReadUdf]; each key is a key of
    [udfSchema] and each value has the key's type. *)
Definition setRead (v : snowflake.udf) (d : ResourceData) : ResourceData :=
  let get (s : option string) :=
    match s with Some x => x | None => EmptyString end in
  {| Id := Id d;
     name := get (snowflake.Name v);
     database := get (snowflake.DatabaseName v);
     schema := get (snowflake.SchemaName v);
     or_replace := or_replace d;
     is_secure := snowflake.IsSecure v;
     return_type := return_type d;
     language := get (snowflake.Language v);
     argument := argument d; body := body d; HasChange := HasChange d |}.

(** [udfBodyStatementDiffSuppress]: the key and the resource data are not
    looked at.  The line endings are made uniform, then the two bodies are
    compared up to the semicolons, carriage returns and newlines at their
    ends. *)
Definition udfBodyStatementDiffSuppress (k old new : string) (d : ResourceData)
  : bool :=
  let old := strings.ReplaceAll old (str CR ++ str LF) (str LF) in
  let new := strings.ReplaceAll new (str CR ++ str LF) (str LF) in
  strings.TrimRight old (";" ++ str CR ++ str LF)
  =? strings.TrimRight new (";" ++ str CR ++ str LF).

Section Database.

Variable EscapeString : string -> string.

(** The database behind [snowflake.Exec] and [snowflake.QueryRow]: a state,
    and for each statement the new state and the answer.  [QueryRow] stands
    for the query followed by [ScanUdf]. *)
Variable DB : Type.
Variable Exec : DB -> string -> DB * option error.
Variable QueryRow : DB -> string -> DB * result snowflake.udf.

(** A CRUD function returns the resource data and the database as it leaves
    them, and its [error] ([None] is [nil]). *)
Definition outcome : Type := ResourceData * DB * option error.

Definition ReadUdf (d : ResourceData) (db : DB) : outcome :=
  match udfIDFromString (Id d) with
  | Err e => (d, db, Some e)
  | Ok udfID =>
      let dbName := DatabaseName udfID in
      let schema := SchemaName udfID in
      let name := Name udfID in
      let q := snowflake.Show
                 (snowflake.WithSchema schema
                    (snowflake.WithDB dbName (snowflake.Udf name))) in
      let (db, v) := QueryRow db q in
      match v with
      | Err ErrNoRows => (SetId EmptyString d, db, None)
      | Err e => (d, db, Some e)
      | Ok v => (setRead v d, db, None)
      end
  end.

Definition CreateUdf (d : ResourceData) (db : DB) : outcome :=
  let name := name d in
  let schema := schema d in
  let database := database d in
  let b := body d in
  let arguments :=
    fold_left (fun args typed =>
                 (args ++ [snowflake.Argument.mk (fst typed) (snd typed)])%list)
              (argument d) [] in
  let builder :=
    snowflake.WithArguments arguments
      (snowflake.WithBody b
         (snowflake.WithSchema schema
            (snowflake.WithDB database (snowflake.Udf name)))) in
  let builder := if or_replace d then snowflake.WithReplace builder else builder in
  let builder := if is_secure d then snowflake.WithSecure builder else builder in
  let builder :=
    if negb (return_type d =? EmptyString)
    then snowflake.WithReturnType (return_type d) builder else builder in
  let builder :=
    if negb (language d =? EmptyString)
    then snowflake.WithLanguage (language d) builder else builder in
  match snowflake.Create EscapeString builder with
  | Err e => (d, db, Some e)
  | Ok q =>
      match Exec db q with
      | (db, Some err) => (d, db, Some (Wrapf err ("error creating Udf " ++ name)))
      | (db, None) =>
          let udfID := {| DatabaseName := database; SchemaName := schema;
                          Name := name |} in
          match udfID_String udfID with
          | Err e => (d, db, Some e)
          | Ok dataIDInput => ReadUdf (SetId dataIDInput d) db
          end
      end
  end.

(** The two blocks of [UpdateUdf] thread the resource data, the database and
    the builder, which [Rename] changes. *)
Definition updateName (dbName schema : string) (d : ResourceData) (db : DB)
    (builder : snowflake.UdfBuilder)
  : ResourceData * DB * snowflake.UdfBuilder * option error :=
  if HasChange d "name" then
    let name := name d in
    match snowflake.Rename EscapeString name builder with
    | (builder, Err e) => (d, db, builder, Some e)
    | (builder, Ok q) =>
        match Exec db q with
        | (db, Some err) =>
            (d, db, builder, Some (Wrapf err ("error renaming Udf " ++ Id d)))
        | (db, None) =>
            (SetId (dbName ++ "|" ++ schema ++ "|" ++ name) d, db, builder, None)
        end
    end
  else (d, db, builder, None).

Definition updateSecure (d : ResourceData) (db : DB)
    (builder : snowflake.UdfBuilder) : ResourceData * DB * option error :=
  if HasChange d "is_secure" then
    if is_secure d then
      match snowflake.Secure EscapeString builder with
      | Err e => (d, db, Some e)
      | Ok q =>
          match Exec db q with
          | (db, Some err) =>
              (d, db, Some (Wrapf err ("error setting secure for Udf " ++ Id d)))
          | (db, None) => (d, db, None)
          end
      end
    else
      match snowflake.Unsecure EscapeString builder with
      | Err e => (d, db, Some e)
      | Ok q =>
          match Exec db q with
          | (db, Some err) =>
              (d, db, Some (Wrapf err ("error unsetting secure for Udf " ++ Id d)))
          | (db, None) => (d, db, None)
          end
      end
  else (d, db, None).

Definition UpdateUdf (d : ResourceData) (db : DB) : outcome :=
  match udfIDFromString (Id d) with
  | Err e => (d, db, Some e)
  | Ok udfID =>
      let dbName := DatabaseName udfID in
      let schema := SchemaName udfID in
      let name := Name udfID in
      let builder :=
        snowflake.WithSchema schema
          (snowflake.WithDB dbName (snowflake.Udf name)) in
      match updateName dbName schema d db builder with
      | (d, db, builder, Some e) => (d, db, Some e)
      | (d, db, builder, None) =>
          match updateSecure d db builder with
          | (d, db, Some e) => (d, db, Some e)
          | (d, db, None) => ReadUdf d db
          end
      end
  end.

Definition DeleteUdf (d : ResourceData) (db : DB) : outcome :=
  match udfIDFromString (Id d) with
  | Err e => (d, db, Some e)
  | Ok udfID =>
      let dbName := DatabaseName udfID in
      let schema := SchemaName udfID in
      let name := Name udfID in
      match snowflake.Drop EscapeString
              (snowflake.WithSchema schema
                 (snowflake.WithDB dbName (snowflake.Udf name))) with
      | Err e => (d, db, Some e)
      | Ok q =>
          match Exec db q with
          | (db, Some err) =>
              (d, db, Some (Wrapf err ("error deleting Udf " ++ Id d)))
          | (db, None) => (SetId EmptyString d, db, None)
          end
      end
  end.

End Database.

End resources.

(* ================================================================== *)
(** ** A reference escaping function *)

(** Modelled from the spec: [EscapeString] is declared in a file of package
    [snowflake] that is not among the sources.  The spec asks of it that a
    quote inside a quoted context be neutralised; this one puts a backslash
    before each single quote, double quote and backslash.  It serves as an
    instance of the parameter [EscapeString], to show that what is assumed of
    the parameter can be met. *)
Fixpoint escapeQuotes (s : string) : string :=
  match s with
  | EmptyString => EmptyString
  | String c r =>
      if (c =? "'")%char || (c =? DQ)%char || (c =? "\")%char
      then String "\" (String c (escapeQuotes r))
      else String c (escapeQuotes r)
  end.

(** No single quote, double quote or backslash occurs in [s]. *)
Fixpoint plainText (s : string) : bool :=
  match s with
  | EmptyString => true
  | String c r =>
      negb ((c =? "'")%char || (c =? DQ)%char || (c =? "\")%char) && plainText r
  end.

(** A carriage return immediately followed by a newline occurs in [s]. *)
Fixpoint containsCRLF (s : string) : bool :=
  match s with
  | EmptyString => false
  | String c r =>
      ((c =? CR)%char && match r with
                         | String c' _ => (c' =? LF)%char
                         | EmptyString => false
                         end)
      || containsCRLF r
  end.

(** A database that answers every query with no rows and accepts every
    statement; its state is the number of statements it has seen. *)
Definition emptyExec (db : nat) (q : string) : nat * option error := (S db, None).
Definition emptyQueryRow (db : nat) (q : string) : nat * result snowflake.udf :=
  (S db, Err ErrNoRows).

(* ================================================================== *)
(** ** Vocabulary of the statements and of their proofs *)

(** The qualified name of a builder with a database and a schema. *)
Definition scopedName (vb : snowflake.UdfBuilder) : string :=
  quoted (snowflake.db vb) ++ "." ++ quoted (snowflake.schema vb) ++ "."
    ++ quoted (snowflake.name vb).

(** The builders of the examples of the spec. *)
Definition exampleArgs1 : snowflake.Arguments :=
  [snowflake.Argument.mk "arg1" "OBJECT"].

Definition exampleArgs2 : snowflake.Arguments :=
  [snowflake.Argument.mk "arg1" "OBJECT"; snowflake.Argument.mk "arg2" "VARCHAR"].

Definition exampleUdf : snowflake.UdfBuilder :=
  snowflake.WithSchema "schema" (snowflake.WithDB "db" (snowflake.Udf "fn")).

(** A resource with the identifier [id] and the name [n] in its
    configuration; [changed] is the key that [HasChange] reports. *)
Definition exampleData (id n changed : string) : resources.ResourceData :=
  {| resources.Id := id;
     resources.name := n;
     resources.database := "db";
     resources.schema := "schema";
     resources.or_replace := false;
     resources.is_secure := false;
     resources.return_type := "VARIANT";
     resources.language := EmptyString;
     resources.argument := [];
     resources.body := "return 1;";
     resources.HasChange := fun key => key =? changed |}.

(** A database that keeps the statements it is sent, in order, accepts every
    statement and answers every query with the row [row]. *)
Definition loggingExec (db : list string) (q : string)
  : list string * option error := ((db ++ [q])%list, None).

Definition loggingQueryRow (row : snowflake.udf) (db : list string) (q : string)
  : list string * result snowflake.udf := ((db ++ [q])%list, Ok row).

(** The row of the mock database of the package's test. *)
Definition testRow : snowflake.udf :=
  {| snowflake.Comment := None;
     snowflake.IsSecure := false;
     snowflake.Name := Some "good_name";
     snowflake.SchemaName := Some "test_schema";
     snowflake.Language := Some "language";
     snowflake.Arguments_ := Some "good_name(OBJECT, VARCHAR) RETURN VARIANT";
     snowflake.DatabaseName := None |}.

(** Every pattern is non-empty and free of the byte [c]. *)
Definition avoid (c : ascii) (pats : list string) : bool :=
  forallb (fun p => negb (p =? EmptyString) && negb (strings.containsByte c p)) pats.

(** The line the reader holds and the input after it, when [u] is what is
    left of the input. *)
Definition lineOf (u : string) : string * string :=
  (fst (fst (csv.readLine u)), snd (fst (csv.readLine u))).

Definition startsWithLF (u : string) : bool :=
  match u with
  | String c _ => (c =? LF)%char
  | EmptyString => false
  end.

(** The loops of the reader, started on what is left of the input. *)
Definition quotedAt (fuel : nat) (buf u : string) : csv.quotedOutcome :=
  csv.quotedField PIPE fuel buf (fst (lineOf u)) (snd (lineOf u)).

Definition parseAt (bound fuel : nat) (fields : list string) (u : string)
  : csv.recordOutcome :=
  csv.parseField PIPE bound fuel fields (fst (lineOf u)) (snd (lineOf u)).

(** What follows a quoted field in a record: nothing, or the delimiter and
    the next fields. *)
Definition isTail (t : string) : Prop :=
  t = EmptyString \/ exists k, t = String PIPE k.

Definition afterQuote (buf t : string) : csv.quotedOutcome :=
  match t with
  | EmptyString => csv.qBreak buf EmptyString
  | String _ k => csv.qContinue buf (fst (lineOf k)) (snd (lineOf k))
  end.

(** What the writer puts before the newline for the record [d], [s], [n]. *)
Definition written (d s n : string) : string :=
  csv.writeField PIPE d
    ++ String PIPE (csv.writeField PIPE s ++ String PIPE (csv.writeField PIPE n)).

(** What a loop of the reader leaves is no longer than what it was given. *)
Definition quotedInBound (line rest : string) (out : csv.quotedOutcome) : Prop :=
  match out with
  | csv.qError e => e <> csv.fuelExhausted
  | csv.qContinue _ l r =>
      String.length l + String.length r < String.length line + String.length rest
      /\ String.length r <= String.length rest
  | csv.qBreak _ r => String.length r <= String.length rest
  end.

Definition recordInBound (n : nat) (out : csv.recordOutcome) : Prop :=
  match out with
  | csv.rError e => e <> csv.fuelExhausted
  | csv.rRecord _ r => String.length r <= n
  | csv.rEOF => True
  end.

(** A database that refuses every statement. *)
Definition failingExec (db : nat) (q : string) : nat * option error :=
  (S db, Some (driverError "statement refused")).

(** The three strings joined with the delimiter, as [UpdateUdf] formats the
    identifier. *)
Definition joined (d s n : string) : string := d ++ "|" ++ s ++ "|" ++ n.

(** The statement [CreateUdf] sends for the resource [d]. *)
Definition createStatement (EscapeString : string -> string)
    (d : resources.ResourceData) : string :=
  "CREATE"
    ++ (if resources.or_replace d then " OR REPLACE" else EmptyString)
    ++ (if resources.is_secure d then " SECURE" else EmptyString)
    ++ " FUNCTION " ++ quoted (resources.database d) ++ "."
    ++ quoted (resources.schema d) ++ "." ++ quoted (resources.name d)
    ++ " (" ++ String.concat ", "
                 (map (fun a => quoted (EscapeString (fst a)) ++ " "
                                  ++ EscapeString (snd a))
                      (resources.argument d))
    ++ ")"
    ++ (if resources.return_type d =? EmptyString then EmptyString
        else " RETURNS " ++ EscapeString (resources.return_type d))
    ++ (if resources.language d =? EmptyString then EmptyString
        else " LANGUAGE " ++ EscapeString (resources.language d))
    ++ " AS $$ " ++ resources.body d ++ " $$".

(** The builder [ReadUdf], [UpdateUdf] and [DeleteUdf] make from a decoded
    identifier: it has no arguments. *)
Definition builderOfID (id : resources.udfID) : snowflake.UdfBuilder :=
  snowflake.WithSchema (resources.SchemaName id)
    (snowflake.WithDB (resources.DatabaseName id)
       (snowflake.Udf (resources.Name id))).

(** The qualified name of the function [n] in the scope of [id]. *)
Definition qualifiedIn (id : resources.udfID) (n : string) : string :=
  quoted (resources.DatabaseName id) ++ "." ++ quoted (resources.SchemaName id)
    ++ "." ++ quoted n.

(** The bytes at the end of a body that the comparison of bodies passes
    over. *)
Definition terminators : string := ";" ++ str CR ++ str LF.

Fixpoint allIn (cutset s : string) : bool :=
  match s with
  | EmptyString => true
  | String c r => strings.containsByte c cutset && allIn cutset r
  end.

(** The last byte of [s] is a byte of [cutset]. *)
Definition lastByteIn (cutset s : string) : bool :=
  match strings.rev s with
  | String c _ => strings.containsByte c cutset
  | EmptyString => false
  end.

(** A body with its line endings made uniform, as the comparison of bodies
    does first. *)
Definition uniform (s : string) : string :=
  strings.ReplaceAll s (str CR ++ str LF) (str LF).

(** [s] with a carriage return put before every newline. *)
Fixpoint toCRLF (s : string) : string :=
  match s with
  | EmptyString => EmptyString
  | String c r =>
      if (c =? LF)%char then String CR (String LF (toCRLF r))
      else String c (toCRLF r)
  end.

(* ================================================================== *)
(** * Properties *)

(** ** Facts on strings *)

Lemma append_nil_r (s : string) : s ++ EmptyString = s.
Proof. induction s as [|c s IH]; simpl; [reflexivity | now rewrite IH]. Qed.

Lemma append_assoc (a b c : string) : (a ++ b) ++ c = a ++ (b ++ c).
Proof. induction a as [|x a IH]; simpl; [reflexivity | now rewrite IH]. Qed.

Lemma length_append (a b : string) :
  String.length (a ++ b) = String.length a + String.length b.
Proof. induction a as [|x a IH]; simpl; [reflexivity | now rewrite IH]. Qed.

Lemma eqb_empty_false (s : string) :
  s <> EmptyString -> (s =? EmptyString) = false.
Proof. intros H. now apply String.eqb_neq. Qed.

Lemma escapeQuotes_plain (s : string) :
  plainText s = true -> escapeQuotes s = s.
Proof.
  induction s as [|c s IH]; simpl; [reflexivity|].
  intros H. apply andb_true_iff in H as [Hc Hs].
  apply negb_true_iff in Hc. rewrite Hc, (IH Hs). reflexivity.
Qed.

Lemma fold_left_snoc_map {A B : Type} (f : A -> B) (l : list A) (acc : list B) :
  fold_left (fun defs x => (defs ++ [f x])%list) l acc = (acc ++ map f l)%list.
Proof.
  revert acc. induction l as [|x l IH]; intros acc; simpl.
  - now rewrite app_nil_r.
  - rewrite IH, <- app_assoc. reflexivity.
Qed.

(* ================================================================== *)
(** ** The statement builder *)

Section BuilderFacts.

Import snowflake.

Variable EscapeString : string -> string.

Lemma QualifiedName_scoped (vb : UdfBuilder) :
  db vb <> EmptyString -> schema vb <> EmptyString ->
  QualifiedName vb = Ok (scopedName vb).
Proof.
  intros Hd Hs. unfold QualifiedName.
  now rewrite (eqb_empty_false _ Hd), (eqb_empty_false _ Hs).
Qed.

Lemma QualifiedName_unscoped (vb : UdfBuilder) :
  db vb = EmptyString \/ schema vb = EmptyString ->
  QualifiedName vb = Err missingScope.
Proof.
  intros [H | H]; unfold QualifiedName; rewrite H; simpl.
  - reflexivity.
  - now rewrite orb_true_r.
Qed.

Lemma getArgumentDefinitions_map (args : Arguments) :
  getArgumentDefinitions EscapeString args
  = "(" ++ String.concat ", " (map (getArgumentDefinition EscapeString) args) ++ ")".
Proof. unfold getArgumentDefinitions. now rewrite fold_left_snoc_map. Qed.

Lemma getArgumentTypesDefinitions_map (args : Arguments) :
  getArgumentTypesDefinitions EscapeString args
  = "(" ++ String.concat ", "
             (map (fun a => EscapeString (Argument._type a)) args) ++ ")".
Proof. unfold getArgumentTypesDefinitions. now rewrite fold_left_snoc_map. Qed.

End BuilderFacts.

(** C6. [QualifiedName] returns an error exactly when the database or the
    schema of the builder is the empty string, whatever the name; when both
    are set it returns the three components, each between two double quotes
    (the byte 34), joined with dots. *)
Theorem QualifiedName_error_iff_scope_missing (vb : snowflake.UdfBuilder) :
  let dq := String "034"%char EmptyString in
  (isErr (snowflake.QualifiedName vb) = true
   <-> (snowflake.db vb = EmptyString \/ snowflake.schema vb = EmptyString))
  /\ (snowflake.db vb <> EmptyString -> snowflake.schema vb <> EmptyString ->
      snowflake.QualifiedName vb
      = Ok (dq ++ snowflake.db vb ++ dq ++ "." ++ dq ++ snowflake.schema vb ++ dq
              ++ "." ++ dq ++ snowflake.name vb ++ dq)).
Proof.
  intros dq. split.
  - split.
    + intros H.
      destruct (string_dec (snowflake.db vb) EmptyString) as [Hd | Hd];
        [now left|].
      destruct (string_dec (snowflake.schema vb) EmptyString) as [Hs | Hs];
        [now right|].
      rewrite (QualifiedName_scoped vb Hd Hs) in H. discriminate H.
    + intros H. now rewrite (QualifiedName_unscoped vb H).
  - intros Hd Hs. rewrite (QualifiedName_scoped vb Hd Hs).
    unfold scopedName, quoted. change (str DQ) with dq.
    repeat (progress (rewrite ?append_assoc; cbn [append])). reflexivity.
Qed.

Lemma QualifiedName_error_iff_scope_missing_witness :
  (isErr (snowflake.QualifiedName (snowflake.Udf EmptyString)) = true
   /\ isErr (snowflake.QualifiedName
               (snowflake.WithDB "db" (snowflake.Udf "fn"))) = true)
  /\ snowflake.QualifiedName
       (snowflake.WithSchema "schema" (snowflake.WithDB "db" (snowflake.Udf "fn")))
     = Ok (String "034"%char
             ("db" ++ String "034"%char
                ("." ++ String "034"%char
                   ("schema" ++ String "034"%char
                      ("." ++ String "034"%char
                         ("fn" ++ String "034"%char EmptyString)))))).
Proof.
  split; [split|].
  - apply (QualifiedName_error_iff_scope_missing (snowflake.Udf EmptyString)).
    left. reflexivity.
  - apply (QualifiedName_error_iff_scope_missing
             (snowflake.WithDB "db" (snowflake.Udf "fn"))).
    right. reflexivity.
  - rewrite (proj2 (QualifiedName_error_iff_scope_missing
                      (snowflake.WithSchema "schema"
                         (snowflake.WithDB "db" (snowflake.Udf "fn")))))
      by (simpl; discriminate).
    reflexivity.
Defined.

(** C4. [Create] renders the clauses in the fixed order CREATE, OR REPLACE,
    SECURE, FUNCTION and the qualified name, the parenthesised arguments,
    RETURNS, LANGUAGE, AS and the body between dollar pairs; an optional
    clause that is not set is absent, and the parentheses are there for every
    argument list.  Every double quote of the statement is written out as the
    byte 34.  The two examples of the spec come out as written there; the
    strings of the examples hold no quote and no backslash, and
    [EscapeString] is taken to leave such strings as they are. *)
Theorem Create_renders_template (EscapeString : string -> string)
    (Hplain : forall s, plainText s = true -> EscapeString s = s) :
  let dq := String "034"%char EmptyString in
  (forall vb,
      snowflake.db vb <> EmptyString -> snowflake.schema vb <> EmptyString ->
      snowflake.Create EscapeString vb
      = Ok ("CREATE"
              ++ (if snowflake.replace vb then " OR REPLACE" else EmptyString)
              ++ (if snowflake.secure vb then " SECURE" else EmptyString)
              ++ " FUNCTION "
              ++ dq ++ snowflake.db vb ++ dq ++ "."
              ++ dq ++ snowflake.schema vb ++ dq ++ "."
              ++ dq ++ snowflake.name vb ++ dq
              ++ " (" ++ String.concat ", "
                           (map (fun a =>
                                   dq ++ EscapeString (snowflake.Argument.name a)
                                      ++ dq ++ " "
                                      ++ EscapeString (snowflake.Argument._type a))
                                (snowflake.arguments vb))
              ++ ")"
              ++ (if snowflake.returnType vb =? EmptyString then EmptyString
                  else " RETURNS " ++ EscapeString (snowflake.returnType vb))
              ++ (if snowflake.language vb =? EmptyString then EmptyString
                  else " LANGUAGE " ++ EscapeString (snowflake.language vb))
              ++ " AS $$ " ++ snowflake.body vb ++ " $$"))
  /\ snowflake.Create EscapeString
       (snowflake.WithArguments exampleArgs1
          (snowflake.WithBody "body text" exampleUdf))
     = Ok ("CREATE FUNCTION " ++ dq ++ "db" ++ dq ++ "." ++ dq ++ "schema" ++ dq
             ++ "." ++ dq ++ "fn" ++ dq ++ " (" ++ dq ++ "arg1" ++ dq
             ++ " OBJECT) AS $$ body text $$")
  /\ (forall body,
         snowflake.Create EscapeString
           (snowflake.WithArguments exampleArgs2
              (snowflake.WithReturnType "VARIANT"
                 (snowflake.WithSecure (snowflake.WithBody body exampleUdf))))
         = Ok ("CREATE SECURE FUNCTION " ++ dq ++ "db" ++ dq ++ "." ++ dq
                 ++ "schema" ++ dq ++ "." ++ dq ++ "fn" ++ dq ++ " (" ++ dq
                 ++ "arg1" ++ dq ++ " OBJECT, " ++ dq ++ "arg2" ++ dq
                 ++ " VARCHAR) RETURNS VARIANT AS $$ " ++ body ++ " $$")).
Proof.
  intros dq.
  assert (Hq : forall s, quoted s = dq ++ s ++ dq) by reflexivity.
  assert (Htemplate : forall vb,
      snowflake.db vb <> EmptyString -> snowflake.schema vb <> EmptyString ->
      snowflake.Create EscapeString vb
      = Ok ("CREATE"
              ++ (if snowflake.replace vb then " OR REPLACE" else EmptyString)
              ++ (if snowflake.secure vb then " SECURE" else EmptyString)
              ++ " FUNCTION "
              ++ dq ++ snowflake.db vb ++ dq ++ "."
              ++ dq ++ snowflake.schema vb ++ dq ++ "."
              ++ dq ++ snowflake.name vb ++ dq
              ++ " (" ++ String.concat ", "
                           (map (fun a =>
                                   dq ++ EscapeString (snowflake.Argument.name a)
                                      ++ dq ++ " "
                                      ++ EscapeString (snowflake.Argument._type a))
                                (snowflake.arguments vb))
              ++ ")"
              ++ (if snowflake.returnType vb =? EmptyString then EmptyString
                  else " RETURNS " ++ EscapeString (snowflake.returnType vb))
              ++ (if snowflake.language vb =? EmptyString then EmptyString
                  else " LANGUAGE " ++ EscapeString (snowflake.language vb))
              ++ " AS $$ " ++ snowflake.body vb ++ " $$")).
  { intros vb Hd Hs. unfold snowflake.Create.
    rewrite (QualifiedName_scoped vb Hd Hs).
    rewrite getArgumentDefinitions_map.
    rewrite (map_ext (snowflake.getArgumentDefinition EscapeString)
               (fun a => dq ++ EscapeString (snowflake.Argument.name a) ++ dq
                            ++ " " ++ EscapeString (snowflake.Argument._type a)))
      by (intros a; unfold snowflake.getArgumentDefinition;
          rewrite Hq, !append_assoc; reflexivity).
    unfold scopedName. rewrite !Hq.
    destruct (snowflake.replace vb), (snowflake.secure vb),
      (snowflake.returnType vb =? EmptyString),
      (snowflake.language vb =? EmptyString);
      cbv zeta; repeat (progress (rewrite ?append_assoc; cbn [append]));
      reflexivity. }
  split; [exact Htemplate|]. split.
  - rewrite Htemplate by (simpl; discriminate).
    cbn -[append]. rewrite !Hplain by reflexivity. reflexivity.
  - intros body. rewrite Htemplate by (simpl; discriminate).
    cbn -[append]. rewrite !Hplain by reflexivity. reflexivity.
Qed.

Lemma Create_renders_template_witness :
  snowflake.Create escapeQuotes
    (snowflake.WithArguments exampleArgs1
       (snowflake.WithBody "body text" exampleUdf))
  = Ok ("CREATE FUNCTION "
          ++ String "034"%char
               ("db" ++ String "034"%char
                  ("." ++ String "034"%char
                     ("schema" ++ String "034"%char
                        ("." ++ String "034"%char
                           ("fn" ++ String "034"%char
                              (" (" ++ String "034"%char
                                 ("arg1" ++ String "034"%char
                                    " OBJECT) AS $$ body text $$"))))))))
  /\ snowflake.Create escapeQuotes
       (snowflake.WithLanguage "javascript" (snowflake.WithReplace exampleUdf))
     = Ok ("CREATE OR REPLACE FUNCTION "
             ++ String "034"%char
                  ("db" ++ String "034"%char
                     ("." ++ String "034"%char
                        ("schema" ++ String "034"%char
                           ("." ++ String "034"%char
                              ("fn" ++ String "034"%char
                                 " () LANGUAGE javascript AS $$  $$")))))).
Proof.
  destruct (Create_renders_template escapeQuotes escapeQuotes_plain)
    as (Htemplate & Hexample & _).
  split.
  - rewrite Hexample. reflexivity.
  - rewrite Htemplate by (simpl; discriminate). reflexivity.
Defined.

(** C5. With a database and a schema set, [Rename] returns the ALTER FUNCTION
    statement made of the old qualified name, the parenthesised argument
    types and the new qualified name; the argument names have no part in it;
    and the builder it leaves has the new name, which [QualifiedName] then
    shows. *)
Theorem Rename_statement_and_new_name (EscapeString : string -> string)
    (vb : snowflake.UdfBuilder) (newName : string)
    (Hdb : snowflake.db vb <> EmptyString)
    (Hschema : snowflake.schema vb <> EmptyString) :
  let oldQualifiedName :=
    quoted (snowflake.db vb) ++ "." ++ quoted (snowflake.schema vb) ++ "."
      ++ quoted (snowflake.name vb) in
  let newQualifiedName :=
    quoted (snowflake.db vb) ++ "." ++ quoted (snowflake.schema vb) ++ "."
      ++ quoted newName in
  let types := map snowflake.Argument._type (snowflake.arguments vb) in
  snd (snowflake.Rename EscapeString newName vb)
  = Ok ("ALTER FUNCTION " ++ oldQualifiedName
          ++ " (" ++ String.concat ", " (map EscapeString types) ++ ")"
          ++ " RENAME TO " ++ newQualifiedName)
  /\ (forall vb',
         snowflake.db vb' = snowflake.db vb ->
         snowflake.schema vb' = snowflake.schema vb ->
         snowflake.name vb' = snowflake.name vb ->
         map snowflake.Argument._type (snowflake.arguments vb') = types ->
         snd (snowflake.Rename EscapeString newName vb')
         = snd (snowflake.Rename EscapeString newName vb))
  /\ snowflake.name (fst (snowflake.Rename EscapeString newName vb)) = newName
  /\ snowflake.QualifiedName (fst (snowflake.Rename EscapeString newName vb))
     = Ok newQualifiedName.
Proof.
  intros oldQN newQN types.
  assert (Hrename : forall b,
             snowflake.db b <> EmptyString -> snowflake.schema b <> EmptyString ->
             snowflake.Rename EscapeString newName b
             = (snowflake.setName newName b,
                Ok ("ALTER FUNCTION " ++ scopedName b ++ " ("
                      ++ String.concat ", "
                           (map EscapeString
                                (map snowflake.Argument._type (snowflake.arguments b)))
                      ++ ")" ++ " RENAME TO "
                      ++ scopedName (snowflake.setName newName b)))).
  { intros b Hd Hs. unfold snowflake.Rename.
    rewrite (QualifiedName_scoped b Hd Hs).
    rewrite (QualifiedName_scoped (snowflake.setName newName b)) by assumption.
    cbv zeta. rewrite getArgumentTypesDefinitions_map, map_map.
    cbn [snowflake.arguments snowflake.setName].
    repeat (progress (rewrite ?append_assoc; cbn [append])). reflexivity. }
  rewrite (Hrename vb Hdb Hschema). cbn [fst snd].
  split; [reflexivity|]. split; [|split].
  - intros vb' Ed Es En Et.
    rewrite (Hrename vb') by (rewrite ?Ed, ?Es; assumption).
    cbn [snd]. unfold scopedName. cbn [snowflake.db snowflake.schema
      snowflake.name snowflake.setName].
    now rewrite Ed, Es, En, Et.
  - reflexivity.
  - now apply QualifiedName_scoped.
Qed.

Lemma Rename_statement_and_new_name_witness :
  snd (snowflake.Rename escapeQuotes "new"
         (snowflake.WithArguments exampleArgs2 exampleUdf))
  = Ok ("ALTER FUNCTION " ++ quoted "db" ++ "." ++ quoted "schema" ++ "."
          ++ quoted "fn" ++ " (OBJECT, VARCHAR) RENAME TO "
          ++ quoted "db" ++ "." ++ quoted "schema" ++ "." ++ quoted "new")
  /\ snowflake.QualifiedName
       (fst (snowflake.Rename escapeQuotes "new"
               (snowflake.WithArguments exampleArgs2 exampleUdf)))
     = Ok (quoted "db" ++ "." ++ quoted "schema" ++ "." ++ quoted "new").
Proof.
  destruct (Rename_statement_and_new_name escapeQuotes
              (snowflake.WithArguments exampleArgs2 exampleUdf) "new")
    as (Hq & _ & _ & Hn).
  - simpl. discriminate.
  - simpl. discriminate.
  - split; [exact Hq | exact Hn].
Defined.

(** C9. With a database and a schema set, [Secure] and [Unsecure] both
    succeed, and their statements are one and the same text followed by
    SET SECURE for the first and by UNSET SECURE for the second. *)
Theorem Secure_Unsecure_differ_in_last_token (EscapeString : string -> string)
    (vb : snowflake.UdfBuilder)
    (Hdb : snowflake.db vb <> EmptyString)
    (Hschema : snowflake.schema vb <> EmptyString) :
  let common :=
    "ALTER FUNCTION " ++ quoted (snowflake.db vb) ++ "."
      ++ quoted (snowflake.schema vb) ++ "." ++ quoted (snowflake.name vb)
      ++ " (" ++ String.concat ", "
                   (map EscapeString
                        (map snowflake.Argument._type (snowflake.arguments vb)))
      ++ ") " in
  snowflake.Secure EscapeString vb = Ok (common ++ "SET SECURE")
  /\ snowflake.Unsecure EscapeString vb = Ok (common ++ "UNSET SECURE").
Proof.
  intros common. subst common.
  unfold snowflake.Secure, snowflake.Unsecure.
  rewrite (QualifiedName_scoped vb Hdb Hschema).
  cbv zeta. rewrite getArgumentTypesDefinitions_map, map_map.
  unfold scopedName.
  split; repeat (progress (rewrite ?append_assoc; cbn [append])); reflexivity.
Qed.

Lemma Secure_Unsecure_differ_in_last_token_witness :
  snowflake.Secure escapeQuotes (snowflake.WithArguments exampleArgs2 exampleUdf)
  = Ok (("ALTER FUNCTION " ++ quoted "db" ++ "." ++ quoted "schema" ++ "."
           ++ quoted "fn" ++ " (OBJECT, VARCHAR) ") ++ "SET SECURE")
  /\ snowflake.Unsecure escapeQuotes (snowflake.WithArguments exampleArgs2 exampleUdf)
     = Ok (("ALTER FUNCTION " ++ quoted "db" ++ "." ++ quoted "schema" ++ "."
              ++ quoted "fn" ++ " (OBJECT, VARCHAR) ") ++ "UNSET SECURE").
Proof.
  apply (Secure_Unsecure_differ_in_last_token escapeQuotes
           (snowflake.WithArguments exampleArgs2 exampleUdf));
    simpl; discriminate.
Defined.

(** C10. [Show] has no error to return: for every builder it is the SHOW
    FUNCTIONS statement with the name between single quotes and the database
    and the schema between double quotes, each as it is, an empty database or
    schema and a quote in the name included.  [Create], [Rename], [Secure],
    [Unsecure] and [Drop] all fail when the database or the schema is empty. *)
Theorem Show_total_without_scope_check (EscapeString : string -> string)
    (vb : snowflake.UdfBuilder) :
  snowflake.Show vb
  = "SHOW FUNCTIONS LIKE '" ++ snowflake.name vb ++ "' IN SCHEMA "
      ++ str DQ ++ snowflake.db vb ++ str DQ ++ "."
      ++ str DQ ++ snowflake.schema vb ++ str DQ
  /\ snowflake.Show (snowflake.Udf "a'b")
     = "SHOW FUNCTIONS LIKE 'a'b' IN SCHEMA " ++ str DQ ++ str DQ ++ "."
         ++ str DQ ++ str DQ
  /\ (snowflake.db vb = EmptyString \/ snowflake.schema vb = EmptyString ->
      snowflake.Create EscapeString vb = Err snowflake.missingScope
      /\ (forall newName,
             snd (snowflake.Rename EscapeString newName vb)
             = Err snowflake.missingScope)
      /\ snowflake.Secure EscapeString vb = Err snowflake.missingScope
      /\ snowflake.Unsecure EscapeString vb = Err snowflake.missingScope
      /\ snowflake.Drop EscapeString vb = Err snowflake.missingScope).
Proof.
  split; [|split].
  - unfold snowflake.Show, quoted.
    repeat (progress (rewrite ?append_assoc; cbn [append])). reflexivity.
  - reflexivity.
  - intros H.
    unfold snowflake.Create, snowflake.Rename, snowflake.Secure,
      snowflake.Unsecure, snowflake.Drop.
    rewrite (QualifiedName_unscoped vb H).
    repeat split; try reflexivity.
    all: destruct (snowflake.replace vb), (snowflake.secure vb); reflexivity.
Qed.

Lemma Show_total_without_scope_check_witness :
  snowflake.Create escapeQuotes (snowflake.WithDB "db" (snowflake.Udf "fn"))
  = Err snowflake.missingScope
  /\ snowflake.Drop escapeQuotes (snowflake.WithDB "db" (snowflake.Udf "fn"))
     = Err snowflake.missingScope.
Proof.
  destruct (proj2 (proj2 (Show_total_without_scope_check escapeQuotes
                            (snowflake.WithDB "db" (snowflake.Udf "fn")))))
    as (Hc & _ & _ & _ & Hd).
  - right. reflexivity.
  - split; [exact Hc | exact Hd].
Defined.

(** C1 (the code departs from it).  [QualifiedName] passes none of its three
    components through [EscapeString]: a double quote in the database name
    reaches the statement as it is and ends the quoted identifier early.  Two
    different scopes then render as the same text, and so do the statements
    built on the qualified name, whatever [EscapeString] is. *)
Theorem QualifiedName_keeps_double_quote (EscapeString : string -> string) :
  let vb := snowflake.WithSchema "s"
              (snowflake.WithDB ("d" ++ str DQ ++ "b") (snowflake.Udf "fn")) in
  snowflake.QualifiedName vb
  = Ok (str DQ ++ "d" ++ str DQ ++ "b" ++ str DQ ++ "."
          ++ str DQ ++ "s" ++ str DQ ++ "." ++ str DQ ++ "fn" ++ str DQ)
  /\ snowflake.Drop EscapeString vb
     = Ok ("DROP FUNCTION " ++ str DQ ++ "d" ++ str DQ ++ "b" ++ str DQ ++ "."
             ++ str DQ ++ "s" ++ str DQ ++ "." ++ str DQ ++ "fn" ++ str DQ ++ " ()")
  /\ snowflake.QualifiedName
       (snowflake.WithSchema "c"
          (snowflake.WithDB ("a" ++ str DQ ++ "." ++ str DQ ++ "b")
             (snowflake.Udf "fn")))
     = snowflake.QualifiedName
         (snowflake.WithSchema ("b" ++ str DQ ++ "." ++ str DQ ++ "c")
            (snowflake.WithDB "a" (snowflake.Udf "fn"))).
Proof.
  cbv zeta. repeat split; reflexivity.
Qed.

(* ================================================================== *)
(** ** White space at the two ends of a string *)

Section TrimFacts.

Import strings.

Lemma rev_append (a b : string) : rev (a ++ b) = rev b ++ rev a.
Proof.
  induction a as [|x a IH]; simpl.
  - now rewrite append_nil_r.
  - now rewrite IH, append_assoc.
Qed.

Lemma rev_involutive (s : string) : rev (rev s) = s.
Proof.
  induction s as [|x s IH]; simpl; [reflexivity|].
  now rewrite rev_append, IH.
Qed.

Lemma rev_snoc (a : string) (c : ascii) : rev (a ++ str c) = String c (rev a).
Proof. now rewrite rev_append. Qed.

(** A byte that no pattern holds is a barrier: what comes after it has no
    part in the match. *)
Lemma HasPrefix_barrier (c : ascii) (p a b : string) :
  containsByte c p = false -> p <> EmptyString ->
  HasPrefix (a ++ String c b) p = HasPrefix a p.
Proof.
  revert a. induction p as [|x p IH]; intros a Hc Hp; [contradiction|].
  simpl in Hc. apply orb_false_iff in Hc as [Hx Hc].
  destruct a as [|y a]; simpl.
  - now rewrite Hx.
  - destruct (x =? y)%char; [|reflexivity]. simpl.
    destruct p as [|x' p]; [reflexivity|].
    apply IH; [exact Hc | discriminate].
Qed.

Lemma leading_barrier (c : ascii) (pats : list string) (a b : string) :
  avoid c pats = true ->
  leading pats (a ++ String c b) = leading pats a.
Proof.
  unfold leading. induction pats as [|p pats IH]; simpl; intros H;
    [reflexivity|].
  apply andb_true_iff in H as [Hp H].
  apply andb_true_iff in Hp as [Hne Hc].
  apply negb_true_iff in Hne, Hc. apply String.eqb_neq in Hne.
  rewrite (HasPrefix_barrier c p a b Hc Hne).
  destruct (HasPrefix a p); [reflexivity | now apply IH].
Qed.

Lemma leading_empty (c : ascii) (pats : list string) :
  avoid c pats = true -> leading pats EmptyString = None.
Proof.
  unfold leading. induction pats as [|p pats IH]; simpl; intros H;
    [reflexivity|].
  apply andb_true_iff in H as [Hp H].
  apply andb_true_iff in Hp as [Hne _].
  apply negb_true_iff in Hne. apply String.eqb_neq in Hne.
  destruct p as [|x p]; [contradiction|]. simpl. now apply IH.
Qed.

Lemma leading_after_barrier (c : ascii) (pats : list string) (b : string) :
  avoid c pats = true -> leading pats (String c b) = None.
Proof.
  intros H.
  change (String c b) with (EmptyString ++ String c b).
  rewrite (leading_barrier c pats _ _ H). exact (leading_empty c pats H).
Qed.

Lemma avoid_PIPE : avoid PIPE unicode.spaceRunes = true.
Proof. reflexivity. Qed.

Lemma avoid_DQ : avoid DQ unicode.spaceRunes = true.
Proof. reflexivity. Qed.

Lemma avoid_PIPE_rev : avoid PIPE (map rev unicode.spaceRunes) = true.
Proof. reflexivity. Qed.

Lemma avoid_DQ_rev : avoid DQ (map rev unicode.spaceRunes) = true.
Proof. reflexivity. Qed.

Lemma trimLeft_none (pats : list string) (fuel : nat) (s : string) :
  leading pats s = None -> trimLeft pats fuel s = s.
Proof. intros H. destruct fuel; simpl; [reflexivity | now rewrite H]. Qed.

Lemma leading_rev_LF (s : string) :
  leading (map rev unicode.spaceRunes) (String LF s) = Some (str LF).
Proof. reflexivity. Qed.

(** The newline that ends the writer's output is all that [TrimSpace] takes
    from it when no white space comes first or stands before the newline. *)
Lemma TrimSpace_newline (s : string) :
  leading unicode.spaceRunes (s ++ str LF) = None ->
  leading (map rev unicode.spaceRunes) (rev s) = None ->
  TrimSpace (s ++ str LF) = s.
Proof.
  intros Hl Hr. unfold TrimSpace.
  rewrite (trimLeft_none _ _ _ Hl).
  rewrite rev_snoc, length_append, Nat.add_1_r.
  cbn [trimLeft]. rewrite leading_rev_LF. cbn [str String.length skip].
  rewrite (trimLeft_none _ _ _ Hr). apply rev_involutive.
Qed.

End TrimFacts.

(* ================================================================== *)
(** ** The reader on what the writer wrote *)

Section ReaderFacts.

Import strings csv.

Lemma lineOf_empty : lineOf EmptyString = (EmptyString, EmptyString).
Proof. reflexivity. Qed.

Lemma lineOf_LF (u : string) : lineOf (String LF u) = (str LF, u).
Proof. reflexivity. Qed.

Lemma ReadSlice_first (x : ascii) (u : string) :
  (x =? LF)%char = false ->
  exists l, fst (fst (ReadSlice (String x u))) = String x l.
Proof.
  intros Hx. simpl. rewrite Hx.
  destruct (ReadSlice u) as [[l r] e]. now exists l.
Qed.

(** A byte that is no newline, and no carriage return before a newline or
    at the end of the input, stays at the head of its line. *)
Lemma lineOf_cons (c : ascii) (u : string) :
  (c =? LF)%char = false ->
  ((c =? CR)%char = true -> u <> EmptyString /\ startsWithLF u = false) ->
  lineOf (String c u) = (String c (fst (lineOf u)), snd (lineOf u)).
Proof.
  intros Hc Hcr. unfold lineOf, readLine.
  destruct u as [|x u].
  - destruct (c =? CR)%char eqn:Ecr.
    + destruct (Hcr eq_refl) as [Hne _]. now contradiction Hne.
    + simpl. rewrite Hc. simpl. rewrite Ecr. simpl. rewrite Ecr. reflexivity.
  - cbn [ReadSlice]. rewrite Hc.
    destruct (x =? LF)%char eqn:Ex.
    + assert (Ecr : (c =? CR)%char = false).
      { destruct (c =? CR)%char; [|reflexivity].
        destruct (Hcr eq_refl) as [_ H]. simpl in H. congruence. }
      cbn. rewrite Ecr. reflexivity.
    + destruct (ReadSlice u) as [[l r] e].
      assert (Hn : forall X, normalizeCRLF (String c (String x X))
                             = String c (normalizeCRLF (String x X))).
      { intros X. cbn [normalizeCRLF]. cbn [String.eqb str]. rewrite Ex.
        rewrite andb_false_r. reflexivity. }
      destruct e; cbn [negb String.eqb andb fst snd].
      * cbn [dropTrailingCR String.eqb]. rewrite andb_false_r.
        destruct ((x =? CR)%char && (l =? EmptyString)) eqn:El.
        -- cbn [normalizeCRLF String.eqb str]. rewrite andb_false_r.
           reflexivity.
        -- rewrite Hn. reflexivity.
      * rewrite Hn. reflexivity.
Qed.

Lemma ordinary_inv (c : ascii) :
  special PIPE c = false ->
  (c =? LF)%char = false /\ (c =? CR)%char = false
  /\ (c =? DQ)%char = false /\ (c =? PIPE)%char = false.
Proof.
  unfold special. intros H.
  apply orb_false_iff in H as [H H4]. apply orb_false_iff in H as [H H3].
  apply orb_false_iff in H as [H1 H2]. auto.
Qed.

Lemma lineOf_ordinary (f u : string) :
  anyByte (special PIPE) f = false ->
  lineOf (f ++ u) = (f ++ fst (lineOf u), snd (lineOf u)).
Proof.
  induction f as [|c f IH]; intros H; cbn [append].
  - now destruct (lineOf u).
  - simpl in H. apply orb_false_iff in H as [Hc Hf].
    destruct (ordinary_inv c Hc) as (H1 & H2 & _ & _).
    rewrite lineOf_cons; [|exact H1 | intros E; congruence].
    rewrite (IH Hf). reflexivity.
Qed.

(* ------------------------------------------------------------------ *)
(** *** A quoted field *)

Lemma quotedField_next (fuel : nat) (buf u : string) :
  (let '(line, rest, _) := readLine u in quotedField PIPE fuel buf line rest)
  = quotedAt fuel buf u.
Proof.
  unfold quotedAt, lineOf. now destruct (readLine u) as [[l r] e].
Qed.

(** A byte of the line that is no quote goes to the field, whether the loop
    meets it alone or with the bytes before the next quote. *)
Lemma quotedField_cons (c : ascii) (fuel : nat) (buf line rest : string) :
  (c =? DQ)%char = false -> line <> EmptyString ->
  quotedField PIPE fuel buf (String c line) rest
  = quotedField PIPE fuel (buf ++ str c) line rest.
Proof.
  intros Hc Hl. destruct fuel as [|k]; [reflexivity|].
  cbn [quotedField cutAt]. rewrite Hc.
  destruct (cutAt DQ line) as [[a b]|].
  - replace (buf ++ String c a) with ((buf ++ str c) ++ a)
      by now rewrite append_assoc.
    reflexivity.
  - rewrite (eqb_empty_false _ Hl). cbn [negb String.eqb].
    replace (buf ++ String c line) with ((buf ++ str c) ++ line)
      by now rewrite append_assoc.
    reflexivity.
Qed.

Lemma writeQuoted_DQ (f : string) :
  writeQuoted (String DQ f) = String DQ (String DQ (writeQuoted f)).
Proof. reflexivity. Qed.

Lemma writeQuoted_other (c : ascii) (f : string) :
  (c =? DQ)%char = false -> writeQuoted (String c f) = String c (writeQuoted f).
Proof.
  intros H. cbn [writeQuoted]. rewrite H.
  destruct (c =? CR)%char eqn:E1.
  - apply Ascii.eqb_eq in E1. now subst c.
  - destruct (c =? LF)%char eqn:E2; [|reflexivity].
    apply Ascii.eqb_eq in E2. now subst c.
Qed.

Lemma containsCRLF_cons (c : ascii) (f : string) :
  containsCRLF (String c f) = false ->
  ((c =? CR)%char = true -> startsWithLF f = false)
  /\ containsCRLF f = false.
Proof.
  cbn [containsCRLF]. intros H. apply orb_false_iff in H as [H1 H2].
  split; [|exact H2]. intros E. rewrite E in H1. simpl in H1.
  destruct f; [reflexivity | exact H1].
Qed.

Lemma quotedBody_head (f t : string) :
  writeQuoted f ++ String DQ t <> EmptyString
  /\ startsWithLF (writeQuoted f ++ String DQ t) = startsWithLF f.
Proof.
  destruct f as [|x f]; [split; [discriminate | reflexivity]|].
  destruct (x =? DQ)%char eqn:E.
  - apply Ascii.eqb_eq in E. subst x. split; [discriminate | reflexivity].
  - rewrite (writeQuoted_other _ _ E). split; [discriminate | reflexivity].
Qed.

(** The condition of [lineOf_cons] for a byte of a quoted field. *)
Lemma quotedBody_cons_ok (c : ascii) (f t : string) :
  containsCRLF (String c f) = false ->
  (c =? CR)%char = true ->
  writeQuoted f ++ String DQ t <> EmptyString
  /\ startsWithLF (writeQuoted f ++ String DQ t) = false.
Proof.
  intros H E. destruct (containsCRLF_cons c f H) as [Hlf _].
  destruct (quotedBody_head f t) as [Hne Hs].
  split; [exact Hne | rewrite Hs; now apply Hlf].
Qed.

Lemma quotedBody_line_nonempty (f t : string) :
  containsCRLF f = false ->
  fst (lineOf (writeQuoted f ++ String DQ t)) <> EmptyString.
Proof.
  intros H. destruct f as [|x f].
  - cbn [writeQuoted append]. rewrite lineOf_cons; [discriminate | reflexivity |].
    intros E. discriminate E.
  - destruct (x =? DQ)%char eqn:E.
    + apply Ascii.eqb_eq in E. subst x. rewrite writeQuoted_DQ. cbn [append].
      rewrite lineOf_cons; [discriminate | reflexivity |].
      intros E. discriminate E.
    + rewrite (writeQuoted_other _ _ E). cbn [append].
      destruct (x =? LF)%char eqn:E2.
      * apply Ascii.eqb_eq in E2. subst x. rewrite lineOf_LF. discriminate.
      * rewrite lineOf_cons; [discriminate | exact E2 |].
        intros E3. now apply (quotedBody_cons_ok x f t).
Qed.

Lemma quotedAt_closing (fuel : nat) (buf t : string) :
  isTail t -> quotedAt (S fuel) buf (String DQ t) = afterQuote buf t.
Proof.
  intros [-> | [k ->]]; unfold quotedAt.
  - rewrite lineOf_cons; [|reflexivity | intros E; discriminate E].
    rewrite lineOf_empty. cbn. now rewrite append_nil_r.
  - rewrite lineOf_cons; [|reflexivity | intros E; discriminate E].
    rewrite lineOf_cons; [|reflexivity | intros E; discriminate E].
    cbn. now rewrite append_nil_r.
Qed.

(** The loop of a quoted field gives back the field the writer quoted. *)
Lemma quotedAt_writeQuoted (f : string) :
  containsCRLF f = false ->
  forall (fuel : nat) (buf t : string),
    isTail t -> String.length f < fuel ->
    quotedAt fuel buf (writeQuoted f ++ String DQ t) = afterQuote (buf ++ f) t.
Proof.
  induction f as [|c f IH]; intros Hf fuel buf t Ht Hfuel.
  - destruct fuel as [|k]; [inversion Hfuel|].
    cbn [writeQuoted append]. rewrite append_nil_r.
    now apply quotedAt_closing.
  - destruct (containsCRLF_cons c f Hf) as [Hlf Hf'].
    cbn [String.length] in Hfuel.
    replace (buf ++ String c f) with ((buf ++ str c) ++ f)
      by now rewrite append_assoc.
    destruct (c =? DQ)%char eqn:E.
    + apply Ascii.eqb_eq in E. subst c. rewrite writeQuoted_DQ. cbn [append].
      destruct fuel as [|k]; [inversion Hfuel|].
      unfold quotedAt.
      rewrite lineOf_cons; [|reflexivity | intros E; discriminate E].
      rewrite lineOf_cons; [|reflexivity | intros E; discriminate E].
      cbn [fst snd quotedField cutAt]. cbn. rewrite append_nil_r.
      apply (IH Hf' k (buf ++ str DQ) t Ht). lia.
    + rewrite (writeQuoted_other _ _ E). cbn [append].
      destruct (c =? LF)%char eqn:E2.
      * apply Ascii.eqb_eq in E2. subst c.
        destruct fuel as [|k]; [inversion Hfuel|].
        unfold quotedAt at 1. rewrite lineOf_LF.
        cbn [fst snd quotedField]. cbn [cutAt str]. cbn.
        rewrite quotedField_next.
        apply (IH Hf' k (buf ++ str LF) t Ht). lia.
      * unfold quotedAt at 1.
        rewrite lineOf_cons;
          [|exact E2 | intros E3; now apply (quotedBody_cons_ok c f t)].
        cbn [fst snd].
        rewrite quotedField_cons;
          [|exact E | now apply quotedBody_line_nonempty].
        apply (IH Hf' fuel (buf ++ str c) t Ht). lia.
Qed.

(* ------------------------------------------------------------------ *)
(** *** The fields of a record *)

Lemma unquoted_inv (f : string) :
  fieldNeedsQuotes PIPE f = false ->
  anyByte (special PIPE) f = false /\ firstRuneIsSpace f = false.
Proof.
  unfold fieldNeedsQuotes. destruct (f =? EmptyString) eqn:E.
  - apply String.eqb_eq in E. subst f. intros _. split; reflexivity.
  - destruct (f =? "\."); [discriminate|].
    destruct (anyByte (special PIPE) f); [discriminate|]. auto.
Qed.

Lemma ordinary_no_DQ (f : string) :
  anyByte (special PIPE) f = false -> containsByte DQ f = false.
Proof.
  induction f as [|c f IH]; [reflexivity|]. cbn [anyByte containsByte].
  intros H. apply orb_false_iff in H as [Hc Hf].
  destruct (ordinary_inv c Hc) as (_ & _ & H3 & _).
  now rewrite H3, (IH Hf).
Qed.

Lemma ordinary_startsWithDQ (f t : string) :
  anyByte (special PIPE) f = false ->
  startsWithDQ (f ++ String PIPE t) = false /\ startsWithDQ f = false.
Proof.
  destruct f as [|c f]; [split; reflexivity|]. cbn [anyByte].
  intros H. apply orb_false_iff in H as [Hc _].
  destruct (ordinary_inv c Hc) as (_ & _ & H3 & _). now split.
Qed.

Lemma cutAt_ordinary (f t : string) :
  anyByte (special PIPE) f = false ->
  cutAt PIPE (f ++ String PIPE t) = Some (f, t) /\ cutAt PIPE f = None.
Proof.
  induction f as [|c f IH]; [split; reflexivity|]. cbn [anyByte].
  intros H. apply orb_false_iff in H as [Hc Hf].
  destruct (ordinary_inv c Hc) as (_ & _ & _ & H4).
  destruct (IH Hf) as [IH1 IH2]. cbn [append cutAt].
  now rewrite H4, IH1, IH2.
Qed.

Lemma ordinary_endsWithLF (f : string) :
  anyByte (special PIPE) f = false -> endsWithLF f = false.
Proof.
  induction f as [|c f IH]; [reflexivity|]. cbn [anyByte].
  intros H. apply orb_false_iff in H as [Hc Hf].
  destruct (ordinary_inv c Hc) as (H1 & _).
  destruct f as [|c' f]; [exact H1 | exact (IH Hf)].
Qed.

Lemma take_all (s : string) : take (String.length s) s = s.
Proof.
  unfold take. induction s as [|c s IH]; [reflexivity|].
  cbn [String.length substring]. now rewrite IH.
Qed.

Lemma parseAt_unquoted_mid (bound k : nat) (fields : list string) (f u : string) :
  anyByte (special PIPE) f = false ->
  parseAt bound (S k) fields (f ++ String PIPE u)
  = parseAt bound k (fields ++ [f])%list u.
Proof.
  intros H. unfold parseAt at 1.
  rewrite (lineOf_ordinary f _ H).
  rewrite lineOf_cons; [|reflexivity | intros E; discriminate E].
  cbn [fst snd parseField].
  rewrite (proj1 (ordinary_startsWithDQ f _ H)). cbn [negb].
  rewrite (proj1 (cutAt_ordinary f _ H)).
  now rewrite (ordinary_no_DQ f H).
Qed.

Lemma parseAt_unquoted_last (bound k : nat) (fields : list string) (f : string) :
  anyByte (special PIPE) f = false ->
  parseAt bound (S k) fields f = rRecord (fields ++ [f])%list EmptyString.
Proof.
  intros H. unfold parseAt.
  rewrite <- (append_nil_r f) at 1 2.
  rewrite (lineOf_ordinary f _ H), lineOf_empty. cbn [fst snd].
  rewrite append_nil_r. cbn [parseField].
  rewrite (proj2 (ordinary_startsWithDQ f EmptyString H)). cbn [negb].
  rewrite (proj2 (cutAt_ordinary f EmptyString H)).
  unfold lengthNL. rewrite (ordinary_endsWithLF f H), Nat.sub_0_r, take_all.
  now rewrite (ordinary_no_DQ f H).
Qed.

Lemma parseAt_quoted (bound k : nat) (fields : list string) (f t : string) :
  containsCRLF f = false -> String.length f < bound -> isTail t ->
  parseAt bound (S k) fields (String DQ (writeQuoted f ++ String DQ t))
  = match t with
    | EmptyString => rRecord (fields ++ [f])%list EmptyString
    | String _ u => parseAt bound k (fields ++ [f])%list u
    end.
Proof.
  intros Hf Hb Ht. unfold parseAt at 1.
  rewrite lineOf_cons; [|reflexivity | intros E; discriminate E].
  cbn [fst snd parseField startsWithDQ]. cbn [negb skip].
  change (Ascii.eqb DQ DQ) with true. cbn [negb].
  fold (quotedAt bound EmptyString (writeQuoted f ++ String DQ t)).
  rewrite (quotedAt_writeQuoted f Hf bound EmptyString t Ht Hb).
  cbn [append]. now destruct t.
Qed.

Lemma length_writeQuoted (f : string) :
  String.length f <= String.length (writeQuoted f).
Proof.
  induction f as [|c f IH]; [apply le_n|].
  cbn [writeQuoted]. rewrite length_append. cbn [String.length].
  destruct (c =? DQ)%char; [cbn; lia|].
  destruct (c =? CR)%char; [cbn; lia|].
  destruct (c =? LF)%char; cbn; lia.
Qed.

Lemma length_writeField (f : string) :
  String.length f <= String.length (writeField PIPE f).
Proof.
  unfold writeField. destruct (fieldNeedsQuotes PIPE f); [|apply le_n].
  cbn [str append String.length]. rewrite length_append.
  pose proof (length_writeQuoted f). lia.
Qed.

(** One field and the delimiter after it. *)
Lemma parseAt_field_mid (bound k : nat) (fields : list string) (f u : string) :
  containsCRLF f = false -> String.length f < bound ->
  parseAt bound (S k) fields (writeField PIPE f ++ String PIPE u)
  = parseAt bound k (fields ++ [f])%list u.
Proof.
  intros Hf Hb. unfold writeField.
  destruct (fieldNeedsQuotes PIPE f) eqn:E.
  - unfold str. cbn [append]. rewrite append_assoc. cbn [append].
    rewrite (parseAt_quoted bound k fields f (String PIPE u) Hf Hb);
      [reflexivity | right; now exists u].
  - apply parseAt_unquoted_mid. now apply unquoted_inv.
Qed.

(** The last field of the record, at the end of the input. *)
Lemma parseAt_field_last (bound k : nat) (fields : list string) (f : string) :
  containsCRLF f = false -> String.length f < bound ->
  parseAt bound (S k) fields (writeField PIPE f)
  = rRecord (fields ++ [f])%list EmptyString.
Proof.
  intros Hf Hb. unfold writeField.
  destruct (fieldNeedsQuotes PIPE f) eqn:E.
  - unfold str. cbn [append].
    rewrite (parseAt_quoted bound k fields f EmptyString Hf Hb);
      [reflexivity | now left].
  - apply parseAt_unquoted_last. now apply unquoted_inv.
Qed.

(* ------------------------------------------------------------------ *)
(** *** A record of three fields *)

Lemma writeFields_three (d s n : string) :
  writeFields PIPE 0 [d; s; n] = written d s n.
Proof.
  unfold written. cbn [writeFields Nat.ltb Nat.leb str append].
  now rewrite append_nil_r.
Qed.

Lemma readLine_not_eof (u : string) :
  u <> EmptyString -> snd (readLine u) = false.
Proof.
  intros H. unfold readLine. destruct u as [|c u]; [contradiction|].
  cbn [ReadSlice]. destruct (c =? LF)%char; [reflexivity|].
  destruct (ReadSlice u) as [[l r] e]. now destruct e.
Qed.

Lemma not_blank (c : ascii) (l : string) :
  (c =? LF)%char = false ->
  (String.length (String c l) =? lengthNL (String c l))%nat = false.
Proof.
  intros H. apply Nat.eqb_neq. unfold lengthNL.
  destruct l as [|c' l].
  - cbn [endsWithLF]. rewrite H. discriminate.
  - destruct (endsWithLF (String c (String c' l))); cbn [String.length]; lia.
Qed.

Lemma readRecord_start (bound k : nat) (u : string) (c : ascii) (l : string) :
  fst (lineOf u) = String c l -> (c =? LF)%char = false ->
  readRecord PIPE bound (S k) u = parseAt bound bound [] u.
Proof.
  intros Hl Hc.
  assert (Hu : u <> EmptyString) by (intros ->; discriminate Hl).
  pose proof (readLine_not_eof u Hu) as He.
  unfold parseAt, lineOf in *. cbn [readRecord].
  change (validDelim PIPE) with true. cbn [negb].
  destruct (readLine u) as [[line rest] eof]. cbn [fst snd] in *.
  subst eof line. now rewrite (not_blank c l Hc).
Qed.

Lemma written_first_line (d X : string) :
  exists c l,
    fst (lineOf (writeField PIPE d ++ String PIPE X)) = String c l
    /\ (c =? LF)%char = false.
Proof.
  unfold writeField. destruct (fieldNeedsQuotes PIPE d) eqn:E.
  - unfold str. cbn [append].
    rewrite lineOf_cons; [|reflexivity | intros E'; discriminate E'].
    eexists _, _. split; reflexivity.
  - destruct (unquoted_inv d E) as [Hd _].
    rewrite (lineOf_ordinary d _ Hd).
    rewrite lineOf_cons; [|reflexivity | intros E'; discriminate E'].
    cbn [fst]. destruct d as [|c d].
    + eexists _, _. split; reflexivity.
    + cbn [anyByte] in Hd. apply orb_false_iff in Hd as [Hc _].
      destruct (ordinary_inv c Hc) as (H1 & _).
      eexists _, _. split; [reflexivity | exact H1].
Qed.

Lemma length_written (d s n : string) :
  String.length (written d s n)
  = String.length (writeField PIPE d) + String.length (writeField PIPE s)
    + String.length (writeField PIPE n) + 2.
Proof.
  unfold written. rewrite length_append. cbn [String.length].
  rewrite length_append. cbn [String.length]. lia.
Qed.

(** The reader gives back the one record of three fields. *)
Lemma ReadAll_written (d s n : string) :
  containsCRLF d = false -> containsCRLF s = false -> containsCRLF n = false ->
  ReadAll PIPE (written d s n) = inr [[d; s; n]].
Proof.
  intros Hd Hs Hn. unfold ReadAll.
  pose proof (length_written d s n) as Hlen.
  pose proof (length_writeField d) as Ld.
  pose proof (length_writeField s) as Ls.
  pose proof (length_writeField n) as Ln.
  destruct (String.length (written d s n)) as [|m] eqn:Em; [lia|].
  cbn [readAll].
  destruct (written_first_line d (writeField PIPE s ++ String PIPE (writeField PIPE n)))
    as (c & l & Hl & Hc).
  fold (written d s n) in Hl.
  rewrite (readRecord_start _ _ _ c l Hl Hc).
  unfold written.
  rewrite parseAt_field_mid; [|exact Hd | lia].
  rewrite parseAt_field_mid; [|exact Hs | lia].
  rewrite parseAt_field_last; [|exact Hn | lia].
  reflexivity.
Qed.

(** [TrimSpace] takes the final newline and nothing else. *)
Lemma leading_written (d X : string) :
  leading unicode.spaceRunes ((writeField PIPE d ++ String PIPE X) ++ str LF) = None.
Proof.
  unfold writeField. destruct (fieldNeedsQuotes PIPE d) eqn:E.
  - unfold str at 1. cbn [append]. apply (leading_after_barrier DQ), avoid_DQ.
  - rewrite append_assoc. cbn [append].
    rewrite (leading_barrier PIPE _ _ _ avoid_PIPE).
    destruct (unquoted_inv d E) as [_ Hsp]. unfold firstRuneIsSpace in Hsp.
    now destruct (leading unicode.spaceRunes d).
Qed.

Lemma trailing_written (X n : string) :
  fieldNeedsQuotes PIPE n = true \/ lastRuneIsSpace n = false ->
  leading (map rev unicode.spaceRunes) (rev (X ++ String PIPE (writeField PIPE n)))
  = None.
Proof.
  intros H. rewrite rev_append. cbn [rev]. rewrite append_assoc.
  unfold str at 1. cbn [append].
  rewrite (leading_barrier PIPE _ _ _ avoid_PIPE_rev).
  unfold writeField. destruct (fieldNeedsQuotes PIPE n) eqn:E.
  - rewrite <- append_assoc, rev_snoc.
    apply (leading_after_barrier DQ), avoid_DQ_rev.
  - destruct H as [H | H]; [discriminate H|].
    unfold lastRuneIsSpace in H.
    now destruct (leading (map rev unicode.spaceRunes) (rev n)).
Qed.

Lemma TrimSpace_written (d s n : string) :
  fieldNeedsQuotes PIPE n = true \/ lastRuneIsSpace n = false ->
  TrimSpace (written d s n ++ str LF) = written d s n.
Proof.
  intros H. apply TrimSpace_newline.
  - apply leading_written.
  - unfold written.
    replace (writeField PIPE d
               ++ String PIPE (writeField PIPE s ++ String PIPE (writeField PIPE n)))
      with ((writeField PIPE d ++ String PIPE (writeField PIPE s))
              ++ String PIPE (writeField PIPE n))
      by (rewrite append_assoc; reflexivity).
    now apply trailing_written.
Qed.

End ReaderFacts.

(** The identifier of a triple whose name keeps its last byte through
    [TrimSpace] is what the writer wrote before the newline, and it decodes
    to the triple when no field holds a carriage return before a newline. *)
Lemma udfID_String_written (d s n : string) :
  csv.fieldNeedsQuotes PIPE n = true \/ strings.lastRuneIsSpace n = false ->
  resources.udfID_String (resources.mkudfID d s n) = Ok (written d s n).
Proof.
  intros H. unfold resources.udfID_String.
  cbn [resources.DatabaseName resources.SchemaName resources.Name
       csv.WriteAll].
  unfold csv.Write. change (csv.validDelim PIPE) with true. cbn [negb].
  rewrite writeFields_three, append_nil_r.
  now rewrite (TrimSpace_written d s n H).
Qed.

Lemma udfIDFromString_written (d s n : string) :
  containsCRLF d = false -> containsCRLF s = false -> containsCRLF n = false ->
  resources.udfIDFromString (written d s n) = Ok (resources.mkudfID d s n).
Proof.
  intros Hd Hs Hn. unfold resources.udfIDFromString, resources.pipeIDDelimiter.
  now rewrite (ReadAll_written d s n Hd Hs Hn).
Qed.

(* ================================================================== *)
(** ** The bounds of the reader's loops are never reached *)

Section ReaderBounds.

Import strings csv.

Variable Comma : ascii.

Lemma ReadSlice_length (u : string) :
  String.length (fst (fst (ReadSlice u))) + String.length (snd (fst (ReadSlice u)))
  = String.length u
  /\ (u <> EmptyString -> fst (fst (ReadSlice u)) <> EmptyString).
Proof.
  induction u as [|c u IH]; [split; [reflexivity | intros H; now contradiction H]|].
  cbn [ReadSlice]. destruct (c =? LF)%char.
  - split; [reflexivity | discriminate].
  - destruct (ReadSlice u) as [[l r] e]. cbn [fst snd] in *.
    destruct IH as [IH _]. split; [cbn [String.length]; lia | discriminate].
Qed.

Lemma dropTrailingCR_length (l : string) :
  String.length (dropTrailingCR l) <= String.length l.
Proof.
  induction l as [|c l IH]; [apply le_n|]. cbn [dropTrailingCR].
  destruct ((c =? CR)%char && (l =? EmptyString)); cbn [String.length]; lia.
Qed.

Lemma normalizeCRLF_length (l : string) :
  String.length (normalizeCRLF l) <= String.length l.
Proof.
  induction l as [|c l IH]; [apply le_n|]. cbn [normalizeCRLF].
  destruct ((c =? CR)%char && (l =? str LF)) eqn:E; cbn [String.length].
  - apply andb_true_iff in E as [_ E]. apply String.eqb_eq in E. subst l.
    cbn. lia.
  - lia.
Qed.

(** A line and what follows it are no longer than the input they come from,
    and a line read before the end of the input takes at least one byte. *)
Lemma readLine_length (u line rest : string) (eof : bool) :
  readLine u = (line, rest, eof) ->
  String.length line + String.length rest <= String.length u
  /\ (eof = false -> String.length rest < String.length u).
Proof.
  unfold readLine. destruct u as [|c u].
  - cbn. intros H. inversion H. subst. split; [apply le_n | discriminate].
  - destruct (ReadSlice_length (String c u)) as [Hlen Hne].
    destruct (ReadSlice (String c u)) as [[l r] e]. cbn [fst snd] in *.
    assert (Hl : l <> EmptyString) by (apply Hne; discriminate).
    assert (0 < String.length l) by (destruct l; [contradiction | cbn; lia]).
    pose proof (dropTrailingCR_length l).
    pose proof (normalizeCRLF_length l).
    pose proof (normalizeCRLF_length (dropTrailingCR l)).
    rewrite (eqb_empty_false _ Hl). cbn [negb andb].
    destruct e; intros E; inversion E; subst; split; intros; lia.
Qed.

Lemma cutAt_length (c : ascii) (s a b : string) :
  cutAt c s = Some (a, b) ->
  String.length a + String.length b + 1 = String.length s.
Proof.
  revert a b. induction s as [|x s IH]; intros a b; [discriminate|].
  cbn [cutAt]. destruct (x =? c)%char.
  - intros E. inversion E. subst. cbn. lia.
  - destruct (cutAt c s) as [[a' b']|]; [|discriminate].
    intros E. injection E as <- <-. specialize (IH a' b' eq_refl). cbn. lia.
Qed.

Lemma quotedField_in_bound (fuel : nat) :
  forall buf line rest,
    String.length line + String.length rest < fuel ->
    quotedInBound line rest (quotedField Comma fuel buf line rest).
Proof.
  induction fuel as [|k IH]; intros buf line rest Hfuel; [inversion Hfuel|].
  cbn [quotedField].
  destruct (cutAt DQ line) as [[pre post]|] eqn:Ecut.
  - apply cutAt_length in Ecut.
    destruct post as [|c post']; [cbn; lia|].
    cbn [String.length] in Ecut.
    destruct (c =? DQ)%char.
    + specialize (IH (buf ++ pre ++ str DQ) post' rest).
      rewrite <- append_assoc in IH.
      assert (Hk : String.length post' + String.length rest < k) by lia.
      specialize (IH Hk). unfold quotedInBound in *.
      destruct (quotedField Comma k ((buf ++ pre) ++ str DQ) post' rest);
        [lia | lia | exact IH].
    + destruct (c =? Comma)%char; [cbn; lia|].
      destruct (lengthNL (String c post') =? String.length (String c post'))%nat;
        cbn; [lia | discriminate].
  - destruct (line =? EmptyString) eqn:El; cbn [negb]; [cbn; discriminate|].
    apply String.eqb_neq in El.
    assert (0 < String.length line) by (destruct line; [contradiction | cbn; lia]).
    destruct (readLine rest) as [[l r] e] eqn:Er.
    apply readLine_length in Er. destruct Er as [Er _].
    assert (Hk : String.length l + String.length r < k) by lia.
    specialize (IH (buf ++ line) l r Hk). unfold quotedInBound in *.
    destruct (quotedField Comma k (buf ++ line) l r); [lia | lia | exact IH].
Qed.

Lemma parseField_in_bound (bound fuel : nat) :
  forall fields line rest,
    String.length line + String.length rest < fuel ->
    String.length line + String.length rest < bound ->
    recordInBound (String.length rest)
                  (parseField Comma bound fuel fields line rest).
Proof.
  induction fuel as [|k IH]; intros fields line rest Hfuel Hbound;
    [inversion Hfuel|].
  cbn [parseField]. destruct (startsWithDQ line) eqn:Edq; cbn [negb].
  - destruct line as [|c line']; [discriminate Edq|]. cbn [skip].
    cbn [String.length] in Hfuel, Hbound.
    assert (Hq : String.length line' + String.length rest < bound) by lia.
    pose proof (quotedField_in_bound bound EmptyString line' rest Hq) as Hin.
    destruct (quotedField Comma bound EmptyString line' rest) as [f l r|f r|e];
      cbn in Hin.
    + assert (Hk : String.length l + String.length r < k) by lia.
      assert (Hb : String.length l + String.length r < bound) by lia.
      specialize (IH (fields ++ [f])%list l r Hk Hb). unfold recordInBound in *.
      destruct (parseField Comma bound k (fields ++ [f]) l r); [exact I | lia | exact IH].
    + exact Hin.
    + exact Hin.
  - destruct (cutAt Comma line) as [[field line']|] eqn:Ecut.
    + apply cutAt_length in Ecut.
      destruct (containsByte DQ field); [cbn; discriminate|].
      apply IH; lia.
    + destruct (containsByte DQ _); cbn; [discriminate | lia].
Qed.

Lemma readRecord_in_bound (bound fuel : nat) :
  forall input,
    String.length input < fuel -> String.length input < bound ->
    match readRecord Comma bound fuel input with
    | rError e => e <> fuelExhausted
    | rRecord _ r => String.length r < String.length input
    | rEOF => True
    end.
Proof.
  induction fuel as [|k IH]; intros input Hfuel Hbound; [inversion Hfuel|].
  cbn [readRecord]. destruct (validDelim Comma); cbn [negb]; [|discriminate].
  destruct (readLine input) as [[line rest] eof] eqn:Er.
  apply readLine_length in Er. destruct Er as [Hlen Hlt].
  destruct eof; [exact I|]. specialize (Hlt eq_refl).
  destruct (String.length line =? lengthNL line)%nat.
  - assert (Hk : String.length rest < k) by lia.
    assert (Hb : String.length rest < bound) by lia.
    specialize (IH rest Hk Hb).
    destruct (readRecord Comma bound k rest); [exact I | lia | exact IH].
  - assert (Hb : String.length line + String.length rest < bound) by lia.
    pose proof (parseField_in_bound bound bound [] line rest Hb Hb) as Hin.
    unfold recordInBound in Hin.
    destruct (parseField Comma bound bound [] line rest); [exact I | lia | exact Hin].
Qed.

Lemma readAll_in_bound (bound fuel : nat) :
  forall n input records,
    String.length input < fuel -> String.length input < bound ->
    readAll Comma bound fuel n input records <> inl fuelExhausted.
Proof.
  induction fuel as [|k IH]; intros n input records Hfuel Hbound;
    [inversion Hfuel|].
  cbn [readAll].
  pose proof (readRecord_in_bound bound bound input Hbound Hbound) as Hin.
  destruct (readRecord Comma bound bound input) as [|dst rest|e];
    cbn [checkFieldCount].
  - discriminate.
  - destruct (0 <? n)%nat.
    + destruct (negb (List.length dst =? n)%nat).
      * intros E. inversion E.
      * apply IH; lia.
    + apply IH; lia.
  - intros E. inversion E. contradiction.
Qed.

(** [ReadAll] answers with records or with one of Go's errors. *)
Lemma ReadAll_in_bound (input : string) :
  ReadAll Comma input <> inl fuelExhausted.
Proof. unfold ReadAll. apply readAll_in_bound; lia. Qed.

End ReaderBounds.

(* ================================================================== *)
(** ** The identifier codec *)

(** C2 (the code departs from it).  [udfID.String] passes what the writer
    wrote through [TrimSpace], to take off the final newline; [TrimSpace]
    takes as well the white space at the end of a name the writer did not
    quote.  In the triple db, schema and fn followed by a space no field
    holds the delimiter, and the writer keeps the space; the identifier is
    db|schema|fn, and it decodes to the name fn, without the space. *)
Theorem udfID_String_loses_trailing_space :
  strings.containsByte PIPE "db" = false
  /\ strings.containsByte PIPE "schema" = false
  /\ strings.containsByte PIPE "fn " = false
  /\ csv.WriteAll PIPE [["db"; "schema"; "fn "]]
     = inr ("db|schema|fn " ++ String "010"%char EmptyString)
  /\ resources.udfID_String (resources.mkudfID "db" "schema" "fn ")
     = Ok "db|schema|fn"
  /\ resources.udfIDFromString "db|schema|fn"
     = Ok (resources.mkudfID "db" "schema" "fn")
  /\ ("fn" =? "fn ") = false.
Proof. repeat split; vm_compute; reflexivity. Qed.

(** Away from that defect the round trip holds.  A triple in which no field
    holds the delimiter or a carriage return before a newline, and whose name
    either is quoted by the writer or does not end in white space, is encoded
    by [udfID.String] and decoded back by [udfIDFromString] to the same
    triple. *)
Theorem udfID_roundtrip (d s n : string) :
  strings.containsByte PIPE d = false ->
  strings.containsByte PIPE s = false ->
  strings.containsByte PIPE n = false ->
  containsCRLF d = false -> containsCRLF s = false -> containsCRLF n = false ->
  csv.fieldNeedsQuotes PIPE n = true \/ strings.lastRuneIsSpace n = false ->
  exists enc,
    resources.udfID_String (resources.mkudfID d s n) = Ok enc
    /\ resources.udfIDFromString enc = Ok (resources.mkudfID d s n).
Proof.
  intros _ _ _ Hd Hs Hn Hname. exists (written d s n). split.
  - now apply udfID_String_written.
  - now apply udfIDFromString_written.
Qed.

Lemma udfID_roundtrip_witness :
  exists enc,
    resources.udfID_String
      (resources.mkudfID " my db" ("sch" ++ str DQ ++ "ema") ("f" ++ str LF ++ "n ")) = Ok enc
    /\ resources.udfIDFromString enc
       = Ok (resources.mkudfID " my db" ("sch" ++ str DQ ++ "ema")
               ("f" ++ str LF ++ "n ")).
Proof.
  apply (udfID_roundtrip " my db" ("sch" ++ str DQ ++ "ema") ("f" ++ str LF ++ "n "));
    try reflexivity.
  left. reflexivity.
Defined.

(** The round trip does not hold for every triple without delimiter: a name
    that ends with a space loses the space, and a carriage return before a
    newline inside a field is dropped by the reader. *)
Lemma udfID_roundtrip_counterexample :
  ~ (forall d s n : string,
        strings.containsByte PIPE d = false ->
        strings.containsByte PIPE s = false ->
        strings.containsByte PIPE n = false ->
        exists enc,
          resources.udfID_String (resources.mkudfID d s n) = Ok enc
          /\ resources.udfIDFromString enc = Ok (resources.mkudfID d s n))
  /\ resources.udfID_String (resources.mkudfID "db" "schema" "fn ")
     = Ok "db|schema|fn"
  /\ resources.udfIDFromString "db|schema|fn"
     = Ok (resources.mkudfID "db" "schema" "fn")
  /\ resources.udfID_String
       (resources.mkudfID "db" "schema" ("f" ++ str CR ++ str LF ++ "n"))
     = Ok ("db|schema|" ++ str DQ ++ "f" ++ str CR ++ str LF ++ "n" ++ str DQ)
  /\ resources.udfIDFromString
       ("db|schema|" ++ str DQ ++ "f" ++ str CR ++ str LF ++ "n" ++ str DQ)
     = Ok (resources.mkudfID "db" "schema" ("f" ++ str LF ++ "n")).
Proof.
  split; [|repeat split; vm_compute; reflexivity].
  intros H.
  destruct (H "db" "schema" "fn " eq_refl eq_refl eq_refl) as (enc & He & Hd).
  vm_compute in He. injection He as <-.
  vm_compute in Hd. discriminate Hd.
Qed.

(** C7. [udfIDFromString] fails when the reader fails, when the reader
    returns no record or more than one, and when the one record has not
    exactly three fields; the strings of two and of four fields fail. *)
Theorem udfIDFromString_rejects_malformed :
  (forall stringID e,
      csv.ReadAll PIPE stringID = inl e ->
      resources.udfIDFromString stringID = Err (errorString "Not CSV compatible"))
  /\ (forall stringID lines,
         csv.ReadAll PIPE stringID = inr lines -> List.length lines <> 1 ->
         resources.udfIDFromString stringID = Err (errorString "1 line per pipe"))
  /\ (forall stringID record,
         csv.ReadAll PIPE stringID = inr [record] -> List.length record <> 3 ->
         resources.udfIDFromString stringID = Err (errorString "3 fields allowed"))
  /\ resources.udfIDFromString "a|b" = Err (errorString "3 fields allowed")
  /\ resources.udfIDFromString "a|b|c|d" = Err (errorString "3 fields allowed").
Proof.
  unfold resources.udfIDFromString, resources.pipeIDDelimiter.
  split; [|split; [|split; [|split]]].
  - intros stringID e H. now rewrite H.
  - intros stringID lines H Hn. rewrite H.
    apply Nat.eqb_neq in Hn. now rewrite Hn.
  - intros stringID record H Hn. rewrite H. cbn [List.length nth Nat.eqb negb].
    apply Nat.eqb_neq in Hn. now rewrite Hn.
  - vm_compute. reflexivity.
  - vm_compute. reflexivity.
Qed.

Lemma udfIDFromString_rejects_malformed_witness :
  resources.udfIDFromString ("a" ++ str DQ ++ "b|c|d")
  = Err (errorString "Not CSV compatible")
  /\ resources.udfIDFromString ("a|b|c" ++ str LF ++ "d|e|f")
     = Err (errorString "1 line per pipe")
  /\ resources.udfIDFromString EmptyString = Err (errorString "1 line per pipe")
  /\ resources.udfIDFromString "a|b" = Err (errorString "3 fields allowed").
Proof.
  destruct udfIDFromString_rejects_malformed as (H1 & H2 & H3 & _).
  split; [|split; [|split]].
  - apply (H1 _ csv.ErrBareQuote). vm_compute. reflexivity.
  - apply (H2 _ [["a"; "b"; "c"]; ["d"; "e"; "f"]]).
    + vm_compute. reflexivity.
    + simpl. lia.
  - apply (H2 _ []).
    + vm_compute. reflexivity.
    + simpl. lia.
  - apply (H3 _ ["a"; "b"]).
    + vm_compute. reflexivity.
    + simpl. lia.
Defined.

(* ================================================================== *)
(** ** The CRUD functions *)

(** C8. When the identifier decodes and the SHOW statement built from it
    finds no row, [ReadUdf] returns no error and leaves the resource with the
    empty identifier. *)
Theorem ReadUdf_no_rows_clears_id (DB : Type)
    (QueryRow : DB -> string -> DB * result snowflake.udf)
    (d : resources.ResourceData) (db db' : DB) (id : resources.udfID) :
  resources.udfIDFromString (resources.Id d) = Ok id ->
  QueryRow db
    (snowflake.Show
       (snowflake.WithSchema (resources.SchemaName id)
          (snowflake.WithDB (resources.DatabaseName id)
             (snowflake.Udf (resources.Name id)))))
  = (db', Err ErrNoRows) ->
  resources.ReadUdf DB QueryRow d db = (resources.SetId EmptyString d, db', None)
  /\ resources.Id (resources.SetId EmptyString d) = EmptyString.
Proof.
  intros Hid Hq. split; [|reflexivity].
  unfold resources.ReadUdf. rewrite Hid. cbv zeta. now rewrite Hq.
Qed.

Lemma ReadUdf_no_rows_clears_id_witness :
  resources.ReadUdf nat emptyQueryRow (exampleData "db|schema|fn" "fn" EmptyString) 0
  = (resources.SetId EmptyString (exampleData "db|schema|fn" "fn" EmptyString),
     1, None).
Proof.
  apply (ReadUdf_no_rows_clears_id nat emptyQueryRow
           (exampleData "db|schema|fn" "fn" EmptyString) 0 1
           (resources.mkudfID "db" "schema" "fn")).
  - vm_compute. reflexivity.
  - reflexivity.
Defined.

(** C3 (the code departs from it).  After a rename [UpdateUdf] sets the
    identifier to the three strings joined with the delimiter, without the
    writer that [CreateUdf] goes through.  With a double quote in the new
    name the statement is executed, the identifier is set, and
    [udfIDFromString] rejects it: the final [ReadUdf] fails on it. *)
Theorem UpdateUdf_rename_sets_undecodable_id (EscapeString : string -> string) :
  let d := exampleData "db|schema|old" ("a" ++ str DQ ++ "b") "name" in
  let out := resources.UpdateUdf EscapeString nat emptyExec emptyQueryRow d 0 in
  resources.Id (fst (fst out)) = "db|schema|a" ++ str DQ ++ "b"
  /\ snd (fst out) = 1
  /\ snd out = Some (errorString "Not CSV compatible")
  /\ resources.udfIDFromString (resources.Id (fst (fst out)))
     = Err (errorString "Not CSV compatible")
  /\ resources.udfID_String
       (resources.mkudfID "db" "schema" ("a" ++ str DQ ++ "b"))
     = Ok ("db|schema|" ++ str DQ ++ "a" ++ str DQ ++ str DQ ++ "b" ++ str DQ).
Proof.
  cbv zeta. repeat split; vm_compute; reflexivity.
Qed.

(* ================================================================== *)
(** ** The expectations of the package's tests *)

Section PackageTests.

Variable EscapeString : string -> string.
Hypothesis EscapeString_plain : forall s, plainText s = true -> EscapeString s = s.

Ltac render :=
  vm_compute; rewrite ?EscapeString_plain by reflexivity; reflexivity.

(** [TestUdf] *)
Lemma TestUdf_statements :
  let v := snowflake.WithBody "PARSE_JSON(BASE64_DECODE_STRING(parent:child::string))"
             (snowflake.WithReturnType "VARIANT"
                (snowflake.WithArguments
                   [snowflake.Argument.mk "arg1" "OBJECT";
                    snowflake.Argument.mk "arg12" "VARCHAR"]
                   (snowflake.WithSecure
                      (snowflake.WithSchema "some_schema"
                         (snowflake.WithDB "some_database" (snowflake.Udf "test")))))) in
  let qn := quoted "some_database" ++ "." ++ quoted "some_schema" ++ "."
              ++ quoted "test" in
  snowflake.Create EscapeString v
  = Ok ("CREATE SECURE FUNCTION " ++ qn ++ " (" ++ quoted "arg1" ++ " OBJECT, "
          ++ quoted "arg12" ++ " VARCHAR) RETURNS VARIANT AS $$ "
          ++ "PARSE_JSON(BASE64_DECODE_STRING(parent:child::string)) $$")
  /\ snowflake.Secure EscapeString v
     = Ok ("ALTER FUNCTION " ++ qn ++ " (OBJECT, VARCHAR) SET SECURE")
  /\ snowflake.Unsecure EscapeString v
     = Ok ("ALTER FUNCTION " ++ qn ++ " (OBJECT, VARCHAR) UNSET SECURE")
  /\ snowflake.Drop EscapeString v
     = Ok ("DROP FUNCTION " ++ qn ++ " (OBJECT, VARCHAR)").
Proof. cbv zeta. repeat split; render. Qed.

(** [TestUdfRename]: the second call sees the name the first one set. *)
Lemma TestUdfRename_statements :
  let v := snowflake.WithSchema "schema" (snowflake.WithDB "db" (snowflake.Udf "test")) in
  let r1 := snowflake.Rename EscapeString "test2" v in
  let r2 := snowflake.Rename EscapeString "test3" (snowflake.WithDB "testDB" (fst r1)) in
  snd r1
  = Ok ("ALTER FUNCTION " ++ quoted "db" ++ "." ++ quoted "schema" ++ "."
          ++ quoted "test" ++ " () RENAME TO " ++ quoted "db" ++ "."
          ++ quoted "schema" ++ "." ++ quoted "test2")
  /\ snd r2
     = Ok ("ALTER FUNCTION " ++ quoted "testDB" ++ "." ++ quoted "schema" ++ "."
             ++ quoted "test2" ++ " () RENAME TO " ++ quoted "testDB" ++ "."
             ++ quoted "schema" ++ "." ++ quoted "test3").
Proof. cbv zeta. split; reflexivity. Qed.

(** [TestUdfCreate]: the two statements the mock database expects, in order,
    and the identifier of the resource afterwards. *)
Lemma TestUdfCreate_statements :
  let d := {| resources.Id := EmptyString;
              resources.name := "good_name";
              resources.database := "test_db";
              resources.schema := "test_schema";
              resources.or_replace := false;
              resources.is_secure := true;
              resources.return_type := "VARIANT";
              resources.language := "javascript";
              resources.argument := [("arg1", "OBJECT"); ("arg2", "VARCHAR")];
              resources.body := "return 1;";
              resources.HasChange := fun _ => false |} in
  let out := resources.CreateUdf EscapeString (list string)
               loggingExec (loggingQueryRow testRow) d [] in
  let qn := quoted "test_db" ++ "." ++ quoted "test_schema" in
  snd (fst out)
  = ["CREATE SECURE FUNCTION " ++ qn ++ "." ++ quoted "good_name" ++ " ("
       ++ quoted "arg1" ++ " OBJECT, " ++ quoted "arg2"
       ++ " VARCHAR) RETURNS VARIANT LANGUAGE javascript AS $$ return 1; $$";
     "SHOW FUNCTIONS LIKE 'good_name' IN SCHEMA " ++ qn]
  /\ snd out = None
  /\ resources.Id (fst (fst out)) = "test_db|test_schema|good_name".
Proof.
  cbv zeta. repeat split; render.
Qed.

End PackageTests.

(* ================================================================== *)
(** * Further properties of the code *)

(** ** The statement builder *)

Section BuilderMore.

Variable EscapeString : string -> string.

Lemma Create_scoped (vb : snowflake.UdfBuilder) :
  snowflake.db vb <> EmptyString -> snowflake.schema vb <> EmptyString ->
  snowflake.Create EscapeString vb
  = Ok ("CREATE"
          ++ (if snowflake.replace vb then " OR REPLACE" else EmptyString)
          ++ (if snowflake.secure vb then " SECURE" else EmptyString)
          ++ " FUNCTION " ++ scopedName vb
          ++ " (" ++ String.concat ", "
                       (map (fun a =>
                               quoted (EscapeString (snowflake.Argument.name a))
                                 ++ " " ++ EscapeString (snowflake.Argument._type a))
                            (snowflake.arguments vb))
          ++ ")"
          ++ (if snowflake.returnType vb =? EmptyString then EmptyString
              else " RETURNS " ++ EscapeString (snowflake.returnType vb))
          ++ (if snowflake.language vb =? EmptyString then EmptyString
              else " LANGUAGE " ++ EscapeString (snowflake.language vb))
          ++ " AS $$ " ++ snowflake.body vb ++ " $$").
Proof.
  intros Hd Hs. unfold snowflake.Create.
  rewrite (QualifiedName_scoped vb Hd Hs).
  rewrite getArgumentDefinitions_map.
  unfold snowflake.getArgumentDefinition.
  destruct (snowflake.replace vb), (snowflake.secure vb),
    (snowflake.returnType vb =? EmptyString),
    (snowflake.language vb =? EmptyString);
    cbv zeta; repeat (progress (rewrite ?append_assoc; cbn [append]));
    reflexivity.
Qed.

Lemma Rename_scoped (newName : string) (vb : snowflake.UdfBuilder) :
  snowflake.db vb <> EmptyString -> snowflake.schema vb <> EmptyString ->
  snowflake.Rename EscapeString newName vb
  = (snowflake.setName newName vb,
     Ok ("ALTER FUNCTION " ++ scopedName vb ++ " "
           ++ snowflake.getArgumentTypesDefinitions EscapeString
                (snowflake.arguments vb)
           ++ " RENAME TO " ++ scopedName (snowflake.setName newName vb))).
Proof.
  intros Hd Hs. unfold snowflake.Rename.
  rewrite (QualifiedName_scoped vb Hd Hs).
  rewrite (QualifiedName_scoped (snowflake.setName newName vb)) by assumption.
  reflexivity.
Qed.

Lemma Rename_unscoped (newName : string) (vb : snowflake.UdfBuilder) :
  snowflake.db vb = EmptyString \/ snowflake.schema vb = EmptyString ->
  snowflake.Rename EscapeString newName vb = (vb, Err snowflake.missingScope).
Proof.
  intros H. unfold snowflake.Rename. now rewrite (QualifiedName_unscoped vb H).
Qed.

Lemma scope_cases (vb : snowflake.UdfBuilder) :
  (snowflake.db vb = EmptyString \/ snowflake.schema vb = EmptyString)
  \/ (snowflake.db vb <> EmptyString /\ snowflake.schema vb <> EmptyString).
Proof.
  destruct (string_dec (snowflake.db vb) EmptyString) as [Hd | Hd];
    [now left; left|].
  destruct (string_dec (snowflake.schema vb) EmptyString) as [Hs | Hs];
    [now left; right|].
  now right.
Qed.

End BuilderMore.

(** X1. A [Rename] that fails has found the database or the schema empty,
    whatever the new name is, and it returns the builder as it was given:
    the name is assigned only after the old qualified name was made. *)
Theorem Rename_failure_keeps_builder (EscapeString : string -> string)
    (vb : snowflake.UdfBuilder) (newName : string) :
  isErr (snd (snowflake.Rename EscapeString newName vb)) = true ->
  snowflake.Rename EscapeString newName vb = (vb, Err snowflake.missingScope)
  /\ (snowflake.db vb = EmptyString \/ snowflake.schema vb = EmptyString).
Proof.
  intros H. destruct (scope_cases vb) as [Hu | [Hd Hs]].
  - split; [now apply Rename_unscoped | exact Hu].
  - rewrite (Rename_scoped EscapeString newName vb Hd Hs) in H. discriminate H.
Qed.

Lemma Rename_failure_keeps_builder_witness :
  snowflake.Rename escapeQuotes "new" (snowflake.WithDB "db" (snowflake.Udf "fn"))
  = (snowflake.WithDB "db" (snowflake.Udf "fn"), Err snowflake.missingScope).
Proof.
  apply (Rename_failure_keeps_builder escapeQuotes
           (snowflake.WithDB "db" (snowflake.Udf "fn")) "new").
  reflexivity.
Defined.

(** X2. Two calls of [Rename] in a row compose: the second statement renames
    from the name the first call set, and the builder is left as one call
    with the last name leaves it. *)
Theorem Rename_twice (EscapeString : string -> string)
    (vb : snowflake.UdfBuilder) (n1 n2 : string) :
  snowflake.db vb <> EmptyString -> snowflake.schema vb <> EmptyString ->
  snowflake.Rename EscapeString n2 (fst (snowflake.Rename EscapeString n1 vb))
  = (fst (snowflake.Rename EscapeString n2 vb),
     Ok ("ALTER FUNCTION " ++ quoted (snowflake.db vb) ++ "."
           ++ quoted (snowflake.schema vb) ++ "." ++ quoted n1 ++ " "
           ++ snowflake.getArgumentTypesDefinitions EscapeString
                (snowflake.arguments vb)
           ++ " RENAME TO " ++ quoted (snowflake.db vb) ++ "."
           ++ quoted (snowflake.schema vb) ++ "." ++ quoted n2)).
Proof.
  intros Hd Hs.
  rewrite (Rename_scoped EscapeString n1 vb Hd Hs).
  rewrite (Rename_scoped EscapeString n2 vb Hd Hs). cbn [fst].
  rewrite (Rename_scoped EscapeString n2 (snowflake.setName n1 vb)) by assumption.
  unfold scopedName. cbn [snowflake.setName snowflake.db snowflake.schema
    snowflake.name snowflake.arguments].
  repeat (progress (rewrite ?append_assoc; cbn [append])). reflexivity.
Qed.

Lemma Rename_twice_witness :
  snd (snowflake.Rename escapeQuotes "c"
         (fst (snowflake.Rename escapeQuotes "b" exampleUdf)))
  = Ok ("ALTER FUNCTION " ++ quoted "db" ++ "." ++ quoted "schema" ++ "."
          ++ quoted "b" ++ " () RENAME TO " ++ quoted "db" ++ "."
          ++ quoted "schema" ++ "." ++ quoted "c").
Proof.
  rewrite (Rename_twice escapeQuotes exampleUdf "b" "c");
    [reflexivity | simpl; discriminate | simpl; discriminate].
Defined.

(** X3. With a database and a schema set, [Drop] returns the DROP FUNCTION
    statement of the qualified name and the parenthesised argument types.
    [Drop], [Secure] and [Unsecure] read nothing of the builder but the
    name, the database, the schema and the types of the arguments. *)
Theorem Drop_statement_and_signature (EscapeString : string -> string)
    (vb : snowflake.UdfBuilder) :
  snowflake.db vb <> EmptyString -> snowflake.schema vb <> EmptyString ->
  snowflake.Drop EscapeString vb
  = Ok ("DROP FUNCTION " ++ quoted (snowflake.db vb) ++ "."
          ++ quoted (snowflake.schema vb) ++ "." ++ quoted (snowflake.name vb)
          ++ " (" ++ String.concat ", "
                       (map EscapeString
                            (map snowflake.Argument._type (snowflake.arguments vb)))
          ++ ")")
  /\ (forall vb',
         snowflake.name vb' = snowflake.name vb ->
         snowflake.db vb' = snowflake.db vb ->
         snowflake.schema vb' = snowflake.schema vb ->
         map snowflake.Argument._type (snowflake.arguments vb')
         = map snowflake.Argument._type (snowflake.arguments vb) ->
         snowflake.Drop EscapeString vb' = snowflake.Drop EscapeString vb
         /\ snowflake.Secure EscapeString vb' = snowflake.Secure EscapeString vb
         /\ snowflake.Unsecure EscapeString vb' = snowflake.Unsecure EscapeString vb).
Proof.
  intros Hd Hs. split.
  - unfold snowflake.Drop. rewrite (QualifiedName_scoped vb Hd Hs).
    cbv zeta. rewrite getArgumentTypesDefinitions_map, map_map.
    unfold scopedName.
    repeat (progress (rewrite ?append_assoc; cbn [append])). reflexivity.
  - intros vb' En Ed Es Et.
    assert (Hd' : snowflake.db vb' <> EmptyString) by now rewrite Ed.
    assert (Hs' : snowflake.schema vb' <> EmptyString) by now rewrite Es.
    unfold snowflake.Drop, snowflake.Secure, snowflake.Unsecure.
    rewrite (QualifiedName_scoped vb Hd Hs), (QualifiedName_scoped vb' Hd' Hs').
    cbv zeta. rewrite !getArgumentTypesDefinitions_map.
    rewrite <- (map_map snowflake.Argument._type EscapeString (snowflake.arguments vb)).
    rewrite <- (map_map snowflake.Argument._type EscapeString (snowflake.arguments vb')).
    unfold scopedName. now rewrite En, Ed, Es, Et.
Qed.

Lemma Drop_statement_and_signature_witness :
  snowflake.Drop escapeQuotes (snowflake.WithArguments exampleArgs2 exampleUdf)
  = Ok ("DROP FUNCTION " ++ quoted "db" ++ "." ++ quoted "schema" ++ "."
          ++ quoted "fn" ++ " (OBJECT, VARCHAR)")
  /\ snowflake.Drop escapeQuotes
       (snowflake.WithBody "body"
          (snowflake.WithArguments
             [snowflake.Argument.mk "x" "OBJECT"; snowflake.Argument.mk "y" "VARCHAR"]
             exampleUdf))
     = snowflake.Drop escapeQuotes (snowflake.WithArguments exampleArgs2 exampleUdf).
Proof.
  destruct (Drop_statement_and_signature escapeQuotes
              (snowflake.WithArguments exampleArgs2 exampleUdf)) as [Hq Hi].
  - simpl. discriminate.
  - simpl. discriminate.
  - split; [exact Hq|].
    apply (Hi (snowflake.WithBody "body"
                 (snowflake.WithArguments
                    [snowflake.Argument.mk "x" "OBJECT";
                     snowflake.Argument.mk "y" "VARCHAR"] exampleUdf)));
      reflexivity.
Defined.

Lemma split_at_DQ (a a' X X' : string) :
  strings.containsByte DQ a = false -> strings.containsByte DQ a' = false ->
  a ++ String DQ X = a' ++ String DQ X' -> a = a' /\ X = X'.
Proof.
  revert a'. induction a as [|c a IH]; intros a' Ha Ha' E.
  - destruct a' as [|c' a']; cbn [append] in E.
    + injection E as E. now split.
    + injection E as E1 E2. subst c'. cbn [strings.containsByte] in Ha'.
      rewrite Ascii.eqb_refl in Ha'. discriminate Ha'.
  - cbn [strings.containsByte] in Ha. apply orb_false_iff in Ha as [Hc Ha].
    destruct a' as [|c' a']; cbn [append] in E.
    + injection E as E1 E2. subst c. rewrite Ascii.eqb_refl in Hc.
      discriminate Hc.
    + injection E as E1 E2. subst c'.
      cbn [strings.containsByte] in Ha'. apply orb_false_iff in Ha' as [_ Ha'].
      destruct (IH a' Ha Ha' E2) as [-> ->]. now split.
Qed.

Lemma append_inv_last (a b : string) (c : ascii) :
  a ++ str c = b ++ str c -> a = b.
Proof.
  revert b. induction a as [|x a IH]; intros b E.
  - destruct b as [|y b]; [reflexivity|]. cbn in E. injection E as _ E.
    destruct b; discriminate E.
  - destruct b as [|y b]; cbn in E.
    + injection E as _ E. destruct a; discriminate E.
    + injection E as -> E. now rewrite (IH b E).
Qed.

(** X4. Where the database and the schema hold no double quote, the
    qualified name tells the three components: two builders with the same
    qualified name have the same database, schema and name. *)
Theorem QualifiedName_injective_without_quotes (vb vb' : snowflake.UdfBuilder)
    (q : string) :
  strings.containsByte DQ (snowflake.db vb) = false ->
  strings.containsByte DQ (snowflake.schema vb) = false ->
  strings.containsByte DQ (snowflake.db vb') = false ->
  strings.containsByte DQ (snowflake.schema vb') = false ->
  snowflake.QualifiedName vb = Ok q -> snowflake.QualifiedName vb' = Ok q ->
  snowflake.db vb = snowflake.db vb'
  /\ snowflake.schema vb = snowflake.schema vb'
  /\ snowflake.name vb = snowflake.name vb'.
Proof.
  intros Hd Hs Hd' Hs' Hq Hq'. unfold snowflake.QualifiedName in Hq, Hq'.
  destruct ((snowflake.db vb =? EmptyString) || (snowflake.schema vb =? EmptyString));
    [discriminate Hq|].
  destruct ((snowflake.db vb' =? EmptyString) || (snowflake.schema vb' =? EmptyString));
    [discriminate Hq'|].
  injection Hq as Hq. injection Hq' as Hq'. rewrite <- Hq' in Hq. clear Hq'.
  unfold quoted, str in Hq.
  repeat (progress (rewrite ?append_assoc in Hq; cbn [append] in Hq)).
  injection Hq as Hq.
  destruct (split_at_DQ _ _ _ _ Hd Hd' Hq) as [E1 Hq1].
  injection Hq1 as Hq1.
  destruct (split_at_DQ _ _ _ _ Hs Hs' Hq1) as [E2 Hq2].
  injection Hq2 as Hq2.
  split; [exact E1 | split; [exact E2|]].
  now apply (append_inv_last _ _ DQ).
Qed.

Lemma QualifiedName_injective_without_quotes_witness :
  snowflake.db exampleUdf = "db" /\ snowflake.schema exampleUdf = "schema"
  /\ snowflake.name exampleUdf = "fn".
Proof.
  apply (QualifiedName_injective_without_quotes exampleUdf
           (snowflake.WithDB "db" (snowflake.WithSchema "schema" (snowflake.Udf "fn")))
           (quoted "db" ++ "." ++ quoted "schema" ++ "." ++ quoted "fn"));
    reflexivity.
Defined.

(* ================================================================== *)
(** ** The identifier, written with and without the CSV writer *)

Lemma joined_first_line (d X : string) :
  csv.anyByte (csv.special PIPE) d = false ->
  exists c l,
    fst (lineOf (d ++ String PIPE X)) = String c l /\ (c =? LF)%char = false.
Proof.
  intros Hd. rewrite (lineOf_ordinary d _ Hd).
  rewrite lineOf_cons; [|reflexivity | intros E'; discriminate E'].
  cbn [fst]. destruct d as [|c d].
  - eexists _, _. split; reflexivity.
  - cbn [csv.anyByte] in Hd. apply orb_false_iff in Hd as [Hc _].
    destruct (ordinary_inv c Hc) as (H1 & _).
    eexists _, _. split; [reflexivity | exact H1].
Qed.

Lemma ReadAll_joined (d s n : string) :
  csv.anyByte (csv.special PIPE) d = false ->
  csv.anyByte (csv.special PIPE) s = false ->
  csv.anyByte (csv.special PIPE) n = false ->
  csv.ReadAll PIPE (joined d s n) = inr [[d; s; n]].
Proof.
  intros Hd Hs Hn.
  change (joined d s n) with (d ++ String PIPE (s ++ String PIPE n)).
  unfold csv.ReadAll.
  assert (Hlen : 2 <= String.length (d ++ String PIPE (s ++ String PIPE n))).
  { rewrite length_append. cbn [String.length]. rewrite length_append.
    cbn [String.length]. lia. }
  destruct (String.length (d ++ String PIPE (s ++ String PIPE n))) as [|m];
    [lia|].
  cbn [csv.readAll].
  destruct (joined_first_line d (s ++ String PIPE n) Hd) as (c & l & Hl & Hc).
  rewrite (readRecord_start _ _ _ c l Hl Hc).
  rewrite (parseAt_unquoted_mid _ _ _ d _ Hd).
  rewrite (parseAt_unquoted_mid _ _ _ s _ Hs).
  destruct m as [|m]; [lia|].
  rewrite (parseAt_unquoted_last _ _ _ n Hn).
  reflexivity.
Qed.

(** X5. An identifier made of three strings joined with the delimiter, none
    of which holds a delimiter, a double quote, a carriage return or a
    newline, decodes to the three strings as they are, white space at their
    ends included. *)
Theorem udfIDFromString_joined (d s n : string) :
  csv.anyByte (csv.special PIPE) d = false ->
  csv.anyByte (csv.special PIPE) s = false ->
  csv.anyByte (csv.special PIPE) n = false ->
  resources.udfIDFromString (d ++ "|" ++ s ++ "|" ++ n)
  = Ok (resources.mkudfID d s n).
Proof.
  intros Hd Hs Hn. fold (joined d s n).
  unfold resources.udfIDFromString, resources.pipeIDDelimiter.
  now rewrite (ReadAll_joined d s n Hd Hs Hn).
Qed.

Lemma udfIDFromString_joined_witness :
  resources.udfIDFromString (" my db" ++ "|" ++ "schema " ++ "|" ++ "fn'1")
  = Ok (resources.mkudfID " my db" "schema " "fn'1").
Proof.
  apply (udfIDFromString_joined " my db" "schema " "fn'1"); reflexivity.
Defined.

(** X6. For a triple whose fields the writer does not quote and whose name
    does not end in white space, [udfID.String] is the three strings joined
    with the delimiter: the text [UpdateUdf] formats for the same triple. *)
Theorem udfID_String_joined (d s n : string) :
  csv.fieldNeedsQuotes PIPE d = false ->
  csv.fieldNeedsQuotes PIPE s = false ->
  csv.fieldNeedsQuotes PIPE n = false ->
  strings.lastRuneIsSpace n = false ->
  resources.udfID_String (resources.mkudfID d s n)
  = Ok (d ++ "|" ++ s ++ "|" ++ n).
Proof.
  intros Hd Hs Hn Hsp.
  rewrite (udfID_String_written d s n (or_intror Hsp)).
  unfold written, csv.writeField. now rewrite Hd, Hs, Hn.
Qed.

Lemma udfID_String_joined_witness :
  resources.udfID_String (resources.mkudfID "test_db" "test_schema" "good name")
  = Ok ("test_db" ++ "|" ++ "test_schema" ++ "|" ++ "good name").
Proof.
  apply (udfID_String_joined "test_db" "test_schema" "good name"); reflexivity.
Defined.

(** X7. [udfID.String] gives different identifiers to different triples, as
    long as no field holds a carriage return before a newline and each name
    is quoted by the writer or does not end in white space. *)
Theorem udfID_String_injective (d s n d' s' n' : string) :
  containsCRLF d = false -> containsCRLF s = false -> containsCRLF n = false ->
  containsCRLF d' = false -> containsCRLF s' = false -> containsCRLF n' = false ->
  csv.fieldNeedsQuotes PIPE n = true \/ strings.lastRuneIsSpace n = false ->
  csv.fieldNeedsQuotes PIPE n' = true \/ strings.lastRuneIsSpace n' = false ->
  resources.udfID_String (resources.mkudfID d s n)
  = resources.udfID_String (resources.mkudfID d' s' n') ->
  d = d' /\ s = s' /\ n = n'.
Proof.
  intros Hd Hs Hn Hd' Hs' Hn' Hname Hname' E.
  rewrite (udfID_String_written d s n Hname) in E.
  rewrite (udfID_String_written d' s' n' Hname') in E.
  injection E as E.
  pose proof (udfIDFromString_written d s n Hd Hs Hn) as H.
  rewrite E, (udfIDFromString_written d' s' n' Hd' Hs' Hn') in H.
  injection H as -> -> ->. auto.
Qed.

Lemma udfID_String_injective_witness :
  "a|b" = "a|b" /\ "c" = "c" /\ " d" = " d".
Proof.
  apply (udfID_String_injective "a|b" "c" " d" "a|b" "c" " d");
    try reflexivity; left; reflexivity.
Defined.

(* ================================================================== *)
(** ** The CRUD functions, statement by statement *)

Section CrudMore.

Variable EscapeString : string -> string.
Variable DB : Type.
Variable Exec : DB -> string -> DB * option error.
Variable QueryRow : DB -> string -> DB * result snowflake.udf.

(** [CreateUdf] with a database and a schema: the statement, the answer of
    the database to it, the identifier, [ReadUdf]. *)
Lemma CreateUdf_scoped (d : resources.ResourceData) (db : DB) :
  resources.database d <> EmptyString -> resources.schema d <> EmptyString ->
  resources.CreateUdf EscapeString DB Exec QueryRow d db
  = match Exec db (createStatement EscapeString d) with
    | (db', Some err) =>
        (d, db', Some (Wrapf err ("error creating Udf " ++ resources.name d)))
    | (db', None) =>
        match resources.udfID_String
                (resources.mkudfID (resources.database d) (resources.schema d)
                   (resources.name d)) with
        | Err e => (d, db', Some e)
        | Ok dataIDInput =>
            resources.ReadUdf DB QueryRow (resources.SetId dataIDInput d) db'
        end
    end.
Proof.
  intros Hd Hs. unfold resources.CreateUdf. cbv zeta.
  rewrite fold_left_snoc_map. cbn [app].
  assert (Hq : forall vb,
             snowflake.db vb = resources.database d ->
             snowflake.schema vb = resources.schema d ->
             snowflake.name vb = resources.name d ->
             snowflake.replace vb = resources.or_replace d ->
             snowflake.secure vb = resources.is_secure d ->
             snowflake.returnType vb = resources.return_type d ->
             snowflake.language vb = resources.language d ->
             snowflake.arguments vb
             = map (fun typed => snowflake.Argument.mk (fst typed) (snd typed))
                   (resources.argument d) ->
             snowflake.body vb = resources.body d ->
             snowflake.Create EscapeString vb = Ok (createStatement EscapeString d)).
  { intros vb E1 E2 E3 E4 E5 E6 E7 E8 E9.
    rewrite Create_scoped by (rewrite ?E1, ?E2; assumption).
    unfold createStatement, scopedName.
    rewrite E1, E2, E3, E4, E5, E6, E7, E8, E9, map_map.
    cbn [snowflake.Argument.name snowflake.Argument._type].
    repeat (progress (rewrite ?append_assoc; cbn [append])). reflexivity. }
  rewrite Hq; [reflexivity | | | | | | | | |].
  all: destruct (resources.or_replace d), (resources.is_secure d),
         (resources.return_type d =? EmptyString) eqn:Er,
         (resources.language d =? EmptyString) eqn:El;
       cbn; try reflexivity;
       try (apply String.eqb_eq in Er; now rewrite Er);
       try (apply String.eqb_eq in El; now rewrite El).
Qed.

End CrudMore.

(** X8. Without a database or without a schema [CreateUdf] returns the
    missing-scope error of the builder: no statement reaches the database and
    the resource data is untouched. *)
Theorem CreateUdf_missing_scope (EscapeString : string -> string) (DB : Type)
    (Exec : DB -> string -> DB * option error)
    (QueryRow : DB -> string -> DB * result snowflake.udf)
    (d : resources.ResourceData) (db : DB) :
  resources.database d = EmptyString \/ resources.schema d = EmptyString ->
  resources.CreateUdf EscapeString DB Exec QueryRow d db
  = (d, db, Some snowflake.missingScope).
Proof.
  intros H. unfold resources.CreateUdf, snowflake.Create. cbv zeta.
  match goal with
  | |- context [snowflake.QualifiedName ?vb] =>
      assert (Hq : snowflake.QualifiedName vb = Err snowflake.missingScope)
  end.
  { apply QualifiedName_unscoped.
    destruct (resources.or_replace d), (resources.is_secure d),
      (resources.return_type d =? EmptyString),
      (resources.language d =? EmptyString); exact H. }
  now rewrite Hq.
Qed.

Lemma CreateUdf_missing_scope_witness :
  resources.CreateUdf escapeQuotes nat emptyExec emptyQueryRow
    {| resources.Id := EmptyString; resources.name := "fn";
       resources.database := "db"; resources.schema := EmptyString;
       resources.or_replace := false; resources.is_secure := false;
       resources.return_type := "VARIANT"; resources.language := EmptyString;
       resources.argument := []; resources.body := "return 1;";
       resources.HasChange := fun _ => false |} 0
  = ({| resources.Id := EmptyString; resources.name := "fn";
        resources.database := "db"; resources.schema := EmptyString;
        resources.or_replace := false; resources.is_secure := false;
        resources.return_type := "VARIANT"; resources.language := EmptyString;
        resources.argument := []; resources.body := "return 1;";
        resources.HasChange := fun _ => false |}, 0,
     Some snowflake.missingScope).
Proof.
  apply CreateUdf_missing_scope. right. reflexivity.
Defined.

(** X9. When the database refuses the CREATE statement, [CreateUdf] returns
    its error wrapped with the name of the function; the identifier is not
    set and no query follows. *)
Theorem CreateUdf_exec_failure (EscapeString : string -> string) (DB : Type)
    (Exec : DB -> string -> DB * option error)
    (QueryRow : DB -> string -> DB * result snowflake.udf)
    (d : resources.ResourceData) (db db' : DB) (err : error) :
  resources.database d <> EmptyString -> resources.schema d <> EmptyString ->
  Exec db (createStatement EscapeString d) = (db', Some err) ->
  resources.CreateUdf EscapeString DB Exec QueryRow d db
  = (d, db', Some (Wrapf err ("error creating Udf " ++ resources.name d))).
Proof.
  intros Hd Hs He.
  rewrite (CreateUdf_scoped EscapeString DB Exec QueryRow d db Hd Hs).
  now rewrite He.
Qed.

Lemma CreateUdf_exec_failure_witness :
  resources.CreateUdf escapeQuotes nat failingExec emptyQueryRow
    (exampleData EmptyString "fn" EmptyString) 0
  = (exampleData EmptyString "fn" EmptyString, 1,
     Some (Wrapf (driverError "statement refused") "error creating Udf fn")).
Proof.
  apply (CreateUdf_exec_failure escapeQuotes nat failingExec emptyQueryRow
           (exampleData EmptyString "fn" EmptyString) 0 1
           (driverError "statement refused")).
  - simpl. discriminate.
  - simpl. discriminate.
  - reflexivity.
Defined.

(** [CreateUdf] on its way to success, the resource data given by the five
    assignments of [ReadUdf]. *)
Lemma CreateUdf_reads_row (EscapeString : string -> string) (DB : Type)
    (Exec : DB -> string -> DB * option error)
    (QueryRow : DB -> string -> DB * result snowflake.udf)
    (d : resources.ResourceData) (db db1 db2 : DB) (row : snowflake.udf) :
  let triple := resources.mkudfID (resources.database d) (resources.schema d)
                  (resources.name d) in
  resources.database d <> EmptyString -> resources.schema d <> EmptyString ->
  containsCRLF (resources.database d) = false ->
  containsCRLF (resources.schema d) = false ->
  containsCRLF (resources.name d) = false ->
  csv.fieldNeedsQuotes PIPE (resources.name d) = true
  \/ strings.lastRuneIsSpace (resources.name d) = false ->
  Exec db (createStatement EscapeString d) = (db1, None) ->
  QueryRow db1 (snowflake.Show (builderOfID triple)) = (db2, Ok row) ->
  exists enc,
    resources.udfID_String triple = Ok enc
    /\ resources.udfIDFromString enc = Ok triple
    /\ resources.CreateUdf EscapeString DB Exec QueryRow d db
       = (resources.setRead row (resources.SetId enc d), db2, None).
Proof.
  intros triple Hd Hs Cd Cs Cn Hname He Hq.
  exists (written (resources.database d) (resources.schema d) (resources.name d)).
  pose proof (udfID_String_written _ (resources.schema d) _ Hname
              : resources.udfID_String triple = _) as Henc.
  pose proof (udfIDFromString_written _ _ _ Cd Cs Cn) as Hdec.
  split; [exact Henc | split; [exact Hdec|]].
  rewrite (CreateUdf_scoped EscapeString DB Exec QueryRow d db Hd Hs).
  rewrite He. fold triple. rewrite Henc.
  unfold resources.ReadUdf. cbn [resources.Id resources.SetId].
  rewrite Hdec. cbv zeta.
  match goal with
  | |- context [QueryRow db1 ?q] =>
      change q with (snowflake.Show (builderOfID triple))
  end.
  now rewrite Hq.
Qed.

(** X10. [CreateUdf] on its way to success: the database accepts the CREATE
    statement, the identifier is set to the encoding of database, schema and
    name, which decodes to them, the SHOW statement of that very triple
    finds a row, and no error is returned.  The resource data then has that
    identifier; its name, schema, database and language are the strings of
    the row, the empty string for a NULL; its security flag is the one of the
    row; the replace flag, the return type, the arguments and the body are
    those it had.  The fields hold no carriage return before a newline and
    the name is quoted by the writer or does not end in white space. *)
Theorem CreateUdf_sets_id_and_reads (EscapeString : string -> string) (DB : Type)
    (Exec : DB -> string -> DB * option error)
    (QueryRow : DB -> string -> DB * result snowflake.udf)
    (d : resources.ResourceData) (db db1 db2 : DB) (row : snowflake.udf) :
  let triple := resources.mkudfID (resources.database d) (resources.schema d)
                  (resources.name d) in
  let text := fun s : option string =>
                match s with Some x => x | None => EmptyString end in
  resources.database d <> EmptyString -> resources.schema d <> EmptyString ->
  containsCRLF (resources.database d) = false ->
  containsCRLF (resources.schema d) = false ->
  containsCRLF (resources.name d) = false ->
  csv.fieldNeedsQuotes PIPE (resources.name d) = true
  \/ strings.lastRuneIsSpace (resources.name d) = false ->
  Exec db (createStatement EscapeString d) = (db1, None) ->
  QueryRow db1 (snowflake.Show (builderOfID triple)) = (db2, Ok row) ->
  exists enc d',
    resources.udfID_String triple = Ok enc
    /\ resources.udfIDFromString enc = Ok triple
    /\ resources.CreateUdf EscapeString DB Exec QueryRow d db = (d', db2, None)
    /\ resources.Id d' = enc
    /\ resources.name d' = text (snowflake.Name row)
    /\ resources.schema d' = text (snowflake.SchemaName row)
    /\ resources.database d' = text (snowflake.DatabaseName row)
    /\ resources.language d' = text (snowflake.Language row)
    /\ resources.is_secure d' = snowflake.IsSecure row
    /\ resources.or_replace d' = resources.or_replace d
    /\ resources.return_type d' = resources.return_type d
    /\ resources.argument d' = resources.argument d
    /\ resources.body d' = resources.body d.
Proof.
  intros triple text Hd Hs Cd Cs Cn Hname He Hq.
  destruct (CreateUdf_reads_row EscapeString DB Exec QueryRow d db db1 db2 row
              Hd Hs Cd Cs Cn Hname He Hq) as (enc & Henc & Hdec & Hout).
  exists enc, (resources.setRead row (resources.SetId enc d)).
  split; [exact Henc|]. split; [exact Hdec|]. split; [exact Hout|].
  repeat split; reflexivity.
Qed.

Lemma CreateUdf_sets_id_and_reads_witness :
  exists enc d',
    resources.udfID_String (resources.mkudfID "db" "schema" "fn") = Ok enc
    /\ resources.udfIDFromString enc = Ok (resources.mkudfID "db" "schema" "fn")
    /\ resources.CreateUdf escapeQuotes (list string) loggingExec
         (loggingQueryRow testRow) (exampleData EmptyString "fn" EmptyString) []
       = (d',
          [createStatement escapeQuotes (exampleData EmptyString "fn" EmptyString);
           snowflake.Show (builderOfID (resources.mkudfID "db" "schema" "fn"))],
          None)
    /\ resources.Id d' = enc
    /\ resources.name d' = "good_name"
    /\ resources.schema d' = "test_schema"
    /\ resources.database d' = EmptyString
    /\ resources.language d' = "language"
    /\ resources.is_secure d' = false
    /\ resources.or_replace d' = false
    /\ resources.return_type d' = "VARIANT"
    /\ resources.argument d' = []
    /\ resources.body d' = "return 1;".
Proof.
  apply (CreateUdf_sets_id_and_reads escapeQuotes (list string) loggingExec
           (loggingQueryRow testRow) (exampleData EmptyString "fn" EmptyString)
           [] [createStatement escapeQuotes (exampleData EmptyString "fn" EmptyString)]
           _ testRow);
    try reflexivity; try (simpl; discriminate).
  right. reflexivity.
Defined.

(** X11. Whatever the database answers, [ReadUdf] leaves the replace flag,
    the return type, the arguments and the body of the resource as they
    were; the identifier is kept, or cleared with no error returned; and
    when an error is returned the resource data is the one it was given. *)
Theorem ReadUdf_keeps_configuration (DB : Type)
    (QueryRow : DB -> string -> DB * result snowflake.udf)
    (d : resources.ResourceData) (db : DB) :
  let out := resources.ReadUdf DB QueryRow d db in
  let d' := fst (fst out) in
  resources.or_replace d' = resources.or_replace d
  /\ resources.return_type d' = resources.return_type d
  /\ resources.argument d' = resources.argument d
  /\ resources.body d' = resources.body d
  /\ (resources.Id d' = resources.Id d
      \/ (resources.Id d' = EmptyString /\ snd out = None))
  /\ (snd out = None \/ d' = d).
Proof.
  cbv zeta. unfold resources.ReadUdf.
  destruct (resources.udfIDFromString (resources.Id d)) as [id | e];
    [|cbn; repeat split; auto].
  cbv zeta. destruct (QueryRow db _) as [db' [row | e]].
  - cbn. repeat split; auto.
  - destruct e; cbn; repeat split; auto.
Qed.

(** X12. An identifier that [udfIDFromString] rejects stops [ReadUdf],
    [UpdateUdf] and [DeleteUdf] at their first step: each returns the error
    of the decoder, with the resource data and the database as they were. *)
Theorem malformed_id_stops_before_database (EscapeString : string -> string)
    (DB : Type) (Exec : DB -> string -> DB * option error)
    (QueryRow : DB -> string -> DB * result snowflake.udf)
    (d : resources.ResourceData) (db : DB) (e : error) :
  resources.udfIDFromString (resources.Id d) = Err e ->
  resources.ReadUdf DB QueryRow d db = (d, db, Some e)
  /\ resources.UpdateUdf EscapeString DB Exec QueryRow d db = (d, db, Some e)
  /\ resources.DeleteUdf EscapeString DB Exec d db = (d, db, Some e).
Proof.
  intros H.
  unfold resources.ReadUdf, resources.UpdateUdf, resources.DeleteUdf.
  rewrite H. auto.
Qed.

Lemma malformed_id_stops_before_database_witness :
  resources.ReadUdf nat emptyQueryRow (exampleData "db|fn" "fn" "name") 0
  = (exampleData "db|fn" "fn" "name", 0, Some (errorString "3 fields allowed"))
  /\ resources.UpdateUdf escapeQuotes nat emptyExec emptyQueryRow
       (exampleData "db|fn" "fn" "name") 0
     = (exampleData "db|fn" "fn" "name", 0, Some (errorString "3 fields allowed"))
  /\ resources.DeleteUdf escapeQuotes nat emptyExec
       (exampleData "db|fn" "fn" "name") 0
     = (exampleData "db|fn" "fn" "name", 0, Some (errorString "3 fields allowed")).
Proof.
  apply (malformed_id_stops_before_database escapeQuotes nat emptyExec
           emptyQueryRow (exampleData "db|fn" "fn" "name") 0).
  vm_compute. reflexivity.
Defined.

(** X13. With no change of name and none of security, [UpdateUdf] sends no
    statement of its own: it is [ReadUdf]. *)
Theorem UpdateUdf_without_change_is_ReadUdf (EscapeString : string -> string)
    (DB : Type) (Exec : DB -> string -> DB * option error)
    (QueryRow : DB -> string -> DB * result snowflake.udf)
    (d : resources.ResourceData) (db : DB) :
  resources.HasChange d "name" = false ->
  resources.HasChange d "is_secure" = false ->
  resources.UpdateUdf EscapeString DB Exec QueryRow d db
  = resources.ReadUdf DB QueryRow d db.
Proof.
  intros Hn Hs. unfold resources.UpdateUdf.
  destruct (resources.udfIDFromString (resources.Id d)) as [id | e] eqn:E.
  - cbv zeta. unfold resources.updateName, resources.updateSecure.
    now rewrite Hn, Hs.
  - unfold resources.ReadUdf. now rewrite E.
Qed.

Lemma UpdateUdf_without_change_is_ReadUdf_witness :
  resources.UpdateUdf escapeQuotes (list string) loggingExec
    (loggingQueryRow testRow) (exampleData "db|schema|fn" "fn" "body") []
  = resources.ReadUdf (list string) (loggingQueryRow testRow)
      (exampleData "db|schema|fn" "fn" "body") [].
Proof.
  apply UpdateUdf_without_change_is_ReadUdf; reflexivity.
Defined.

Section UpdateMore.

Variable EscapeString : string -> string.
Variable DB : Type.
Variable Exec : DB -> string -> DB * option error.
Variable QueryRow : DB -> string -> DB * result snowflake.udf.

Lemma builderOfID_scoped (id : resources.udfID) (n : string) :
  resources.DatabaseName id <> EmptyString ->
  resources.SchemaName id <> EmptyString ->
  snowflake.QualifiedName (snowflake.setName n (builderOfID id))
  = Ok (qualifiedIn id n)
  /\ snowflake.QualifiedName (builderOfID id)
     = Ok (qualifiedIn id (resources.Name id)).
Proof.
  intros Hd Hs. split; apply QualifiedName_scoped; assumption.
Qed.

(** The block of [UpdateUdf] for the name, for an identifier with a
    database and a schema. *)
Lemma updateName_scoped (id : resources.udfID) (d : resources.ResourceData)
    (db : DB) :
  resources.DatabaseName id <> EmptyString ->
  resources.SchemaName id <> EmptyString ->
  resources.HasChange d "name" = true ->
  resources.updateName EscapeString DB Exec (resources.DatabaseName id)
    (resources.SchemaName id) d db (builderOfID id)
  = match Exec db ("ALTER FUNCTION " ++ qualifiedIn id (resources.Name id)
                     ++ " () RENAME TO " ++ qualifiedIn id (resources.name d)) with
    | (db', Some err) =>
        (d, db', snowflake.setName (resources.name d) (builderOfID id),
         Some (Wrapf err ("error renaming Udf " ++ resources.Id d)))
    | (db', None) =>
        (resources.SetId
           (resources.DatabaseName id ++ "|" ++ resources.SchemaName id ++ "|"
              ++ resources.name d) d,
         db', snowflake.setName (resources.name d) (builderOfID id), None)
    end.
Proof.
  intros Hd Hs Hn. unfold resources.updateName. rewrite Hn.
  rewrite Rename_scoped by assumption.
  unfold scopedName, qualifiedIn.
  cbn [builderOfID snowflake.setName snowflake.WithSchema snowflake.WithDB
       snowflake.Udf snowflake.db snowflake.schema snowflake.name
       snowflake.arguments].
  change (snowflake.getArgumentTypesDefinitions EscapeString []) with "()".
  repeat (progress (rewrite ?append_assoc; cbn [append])). reflexivity.
Qed.

(** The block of [UpdateUdf] for the security, on a builder without
    arguments. *)
Lemma updateSecure_scoped (id : resources.udfID) (n : string)
    (d : resources.ResourceData) (db : DB) :
  resources.DatabaseName id <> EmptyString ->
  resources.SchemaName id <> EmptyString ->
  resources.HasChange d "is_secure" = true ->
  resources.updateSecure EscapeString DB Exec d db
    (snowflake.setName n (builderOfID id))
  = match Exec db ("ALTER FUNCTION " ++ qualifiedIn id n ++ " () "
                     ++ (if resources.is_secure d then "SET SECURE"
                         else "UNSET SECURE")) with
    | (db', Some err) =>
        (d, db',
         Some (Wrapf err ((if resources.is_secure d
                           then "error setting secure for Udf "
                           else "error unsetting secure for Udf ")
                            ++ resources.Id d)))
    | (db', None) => (d, db', None)
    end.
Proof.
  intros Hd Hs Hc. unfold resources.updateSecure. rewrite Hc.
  unfold snowflake.Secure, snowflake.Unsecure.
  rewrite (proj1 (builderOfID_scoped id n Hd Hs)). cbv zeta.
  cbn [builderOfID snowflake.setName snowflake.WithSchema snowflake.WithDB
       snowflake.Udf snowflake.arguments].
  change (snowflake.getArgumentTypesDefinitions EscapeString []) with "()".
  destruct (resources.is_secure d);
    repeat (progress (rewrite ?append_assoc; cbn [append])); reflexivity.
Qed.

End UpdateMore.

(** X14. A change of name alone: [UpdateUdf] sends one ALTER FUNCTION ...
    RENAME TO statement, from the name in the identifier to the name in the
    configuration, both in the scope of the identifier and with an empty
    argument list.  If the database refuses it the error comes back wrapped
    and the identifier stays; otherwise the identifier becomes database,
    schema and new name joined with the delimiter, and [ReadUdf] follows. *)
Theorem UpdateUdf_rename (EscapeString : string -> string) (DB : Type)
    (Exec : DB -> string -> DB * option error)
    (QueryRow : DB -> string -> DB * result snowflake.udf)
    (d : resources.ResourceData) (db db1 : DB) (r : option error)
    (id : resources.udfID) :
  resources.udfIDFromString (resources.Id d) = Ok id ->
  resources.DatabaseName id <> EmptyString ->
  resources.SchemaName id <> EmptyString ->
  resources.HasChange d "name" = true ->
  resources.HasChange d "is_secure" = false ->
  Exec db ("ALTER FUNCTION " ++ qualifiedIn id (resources.Name id)
             ++ " () RENAME TO " ++ qualifiedIn id (resources.name d)) = (db1, r) ->
  resources.UpdateUdf EscapeString DB Exec QueryRow d db
  = match r with
    | Some err =>
        (d, db1, Some (Wrapf err ("error renaming Udf " ++ resources.Id d)))
    | None =>
        resources.ReadUdf DB QueryRow
          (resources.SetId
             (resources.DatabaseName id ++ "|" ++ resources.SchemaName id ++ "|"
                ++ resources.name d) d) db1
    end.
Proof.
  intros Hid Hd Hs Hn Hsec He. unfold resources.UpdateUdf. rewrite Hid.
  cbv zeta. fold (builderOfID id).
  rewrite (updateName_scoped EscapeString DB Exec id d db Hd Hs Hn), He.
  destruct r as [err|]; [reflexivity|].
  unfold resources.updateSecure. cbn [resources.HasChange resources.SetId].
  now rewrite Hsec.
Qed.

Lemma UpdateUdf_rename_witness :
  resources.UpdateUdf escapeQuotes (list string) loggingExec
    (loggingQueryRow testRow) (exampleData "db|schema|old" "new" "name") []
  = (resources.setRead testRow
       (resources.SetId "db|schema|new" (exampleData "db|schema|old" "new" "name")),
     ["ALTER FUNCTION " ++ quoted "db" ++ "." ++ quoted "schema" ++ "."
        ++ quoted "old" ++ " () RENAME TO " ++ quoted "db" ++ "."
        ++ quoted "schema" ++ "." ++ quoted "new";
      "SHOW FUNCTIONS LIKE 'new' IN SCHEMA " ++ quoted "db" ++ "." ++ quoted "schema"],
     None).
Proof.
  rewrite (UpdateUdf_rename escapeQuotes (list string) loggingExec
             (loggingQueryRow testRow) (exampleData "db|schema|old" "new" "name")
             []
             ["ALTER FUNCTION " ++ quoted "db" ++ "." ++ quoted "schema" ++ "."
                ++ quoted "old" ++ " () RENAME TO " ++ quoted "db" ++ "."
                ++ quoted "schema" ++ "." ++ quoted "new"]
             None (resources.mkudfID "db" "schema" "old"));
    try (vm_compute; reflexivity); try (simpl; discriminate).
Defined.

(** A rename alone, up to the row of the new name, the resource data given
    by the five assignments of [ReadUdf]. *)
Lemma UpdateUdf_rename_reads_row (EscapeString : string -> string)
    (DB : Type) (Exec : DB -> string -> DB * option error)
    (QueryRow : DB -> string -> DB * result snowflake.udf)
    (d : resources.ResourceData) (db db1 db2 : DB) (row : snowflake.udf)
    (id : resources.udfID) :
  let renamed := resources.mkudfID (resources.DatabaseName id)
                   (resources.SchemaName id) (resources.name d) in
  resources.udfIDFromString (resources.Id d) = Ok id ->
  resources.DatabaseName id <> EmptyString ->
  resources.SchemaName id <> EmptyString ->
  csv.anyByte (csv.special PIPE) (resources.DatabaseName id) = false ->
  csv.anyByte (csv.special PIPE) (resources.SchemaName id) = false ->
  csv.anyByte (csv.special PIPE) (resources.name d) = false ->
  resources.HasChange d "name" = true ->
  resources.HasChange d "is_secure" = false ->
  Exec db ("ALTER FUNCTION " ++ qualifiedIn id (resources.Name id)
             ++ " () RENAME TO " ++ qualifiedIn id (resources.name d))
  = (db1, None) ->
  QueryRow db1 (snowflake.Show (builderOfID renamed)) = (db2, Ok row) ->
  resources.UpdateUdf EscapeString DB Exec QueryRow d db
  = (resources.setRead row
       (resources.SetId
          (resources.DatabaseName id ++ "|" ++ resources.SchemaName id ++ "|"
             ++ resources.name d) d),
     db2, None)
  /\ resources.udfIDFromString
       (resources.DatabaseName id ++ "|" ++ resources.SchemaName id ++ "|"
          ++ resources.name d)
     = Ok renamed.
Proof.
  intros renamed Hid Hd Hs Od Os On Hn Hsec He Hq.
  assert (Hdec : resources.udfIDFromString
                   (resources.DatabaseName id ++ "|" ++ resources.SchemaName id
                      ++ "|" ++ resources.name d) = Ok renamed).
  { fold (joined (resources.DatabaseName id) (resources.SchemaName id)
            (resources.name d)).
    unfold resources.udfIDFromString, resources.pipeIDDelimiter.
    now rewrite (ReadAll_joined _ _ _ Od Os On). }
  split; [|exact Hdec].
  unfold resources.UpdateUdf. rewrite Hid. cbv zeta. fold (builderOfID id).
  rewrite (updateName_scoped EscapeString DB Exec id d db Hd Hs Hn), He.
  unfold resources.updateSecure. cbn [resources.HasChange resources.SetId].
  rewrite Hsec. unfold resources.ReadUdf.
  change (resources.Id (resources.SetId ?x d)) with x.
  rewrite Hdec. cbv zeta.
  match goal with
  | |- context [QueryRow db1 ?q] =>
      change q with (snowflake.Show (builderOfID renamed))
  end.
  now rewrite Hq.
Qed.

(** X15. A change of name alone, accepted by the database: [UpdateUdf]
    decodes the identifier it has just set.  When database, schema and new
    name hold no delimiter, double quote, carriage return or newline, that
    identifier decodes to them, the SHOW statement is the one of the new
    name, and a row it finds ends the update without error: the resource
    data has the new identifier, the name, schema, database and language of
    the row (the empty string for a NULL) and its security flag, and its
    replace flag, return type, arguments and body as before. *)
Theorem UpdateUdf_rename_reads_new_name (EscapeString : string -> string)
    (DB : Type) (Exec : DB -> string -> DB * option error)
    (QueryRow : DB -> string -> DB * result snowflake.udf)
    (d : resources.ResourceData) (db db1 db2 : DB) (row : snowflake.udf)
    (id : resources.udfID) :
  let renamed := resources.mkudfID (resources.DatabaseName id)
                   (resources.SchemaName id) (resources.name d) in
  let newID := resources.DatabaseName id ++ "|" ++ resources.SchemaName id
                 ++ "|" ++ resources.name d in
  let text := fun s : option string =>
                match s with Some x => x | None => EmptyString end in
  resources.udfIDFromString (resources.Id d) = Ok id ->
  resources.DatabaseName id <> EmptyString ->
  resources.SchemaName id <> EmptyString ->
  csv.anyByte (csv.special PIPE) (resources.DatabaseName id) = false ->
  csv.anyByte (csv.special PIPE) (resources.SchemaName id) = false ->
  csv.anyByte (csv.special PIPE) (resources.name d) = false ->
  resources.HasChange d "name" = true ->
  resources.HasChange d "is_secure" = false ->
  Exec db ("ALTER FUNCTION " ++ qualifiedIn id (resources.Name id)
             ++ " () RENAME TO " ++ qualifiedIn id (resources.name d))
  = (db1, None) ->
  QueryRow db1 (snowflake.Show (builderOfID renamed)) = (db2, Ok row) ->
  exists d',
    resources.UpdateUdf EscapeString DB Exec QueryRow d db = (d', db2, None)
    /\ resources.udfIDFromString newID = Ok renamed
    /\ resources.Id d' = newID
    /\ resources.name d' = text (snowflake.Name row)
    /\ resources.schema d' = text (snowflake.SchemaName row)
    /\ resources.database d' = text (snowflake.DatabaseName row)
    /\ resources.language d' = text (snowflake.Language row)
    /\ resources.is_secure d' = snowflake.IsSecure row
    /\ resources.or_replace d' = resources.or_replace d
    /\ resources.return_type d' = resources.return_type d
    /\ resources.argument d' = resources.argument d
    /\ resources.body d' = resources.body d.
Proof.
  intros renamed newID text Hid Hd Hs Od Os On Hn Hsec He Hq.
  destruct (UpdateUdf_rename_reads_row EscapeString DB Exec QueryRow d db db1
              db2 row id Hid Hd Hs Od Os On Hn Hsec He Hq) as [Hout Hdec].
  exists (resources.setRead row (resources.SetId newID d)).
  split; [exact Hout|]. split; [exact Hdec|].
  repeat split; reflexivity.
Qed.

Lemma UpdateUdf_rename_reads_new_name_witness :
  exists d',
    resources.UpdateUdf escapeQuotes (list string) loggingExec
      (loggingQueryRow testRow) (exampleData "db|schema|old" "new 1" "name") []
    = (d',
       ["ALTER FUNCTION " ++ qualifiedIn (resources.mkudfID "db" "schema" "old") "old"
          ++ " () RENAME TO "
          ++ qualifiedIn (resources.mkudfID "db" "schema" "old") "new 1";
        snowflake.Show (builderOfID (resources.mkudfID "db" "schema" "new 1"))],
       None)
    /\ resources.udfIDFromString ("db" ++ "|" ++ "schema" ++ "|" ++ "new 1")
       = Ok (resources.mkudfID "db" "schema" "new 1")
    /\ resources.Id d' = "db|schema|new 1"
    /\ resources.name d' = "good_name"
    /\ resources.schema d' = "test_schema"
    /\ resources.database d' = EmptyString
    /\ resources.language d' = "language"
    /\ resources.is_secure d' = false
    /\ resources.or_replace d' = false
    /\ resources.return_type d' = "VARIANT"
    /\ resources.argument d' = []
    /\ resources.body d' = "return 1;".
Proof.
  apply (UpdateUdf_rename_reads_new_name escapeQuotes (list string) loggingExec
           (loggingQueryRow testRow)
           (exampleData "db|schema|old" "new 1" "name") []
           ["ALTER FUNCTION "
              ++ qualifiedIn (resources.mkudfID "db" "schema" "old") "old"
              ++ " () RENAME TO "
              ++ qualifiedIn (resources.mkudfID "db" "schema" "old") "new 1"]
           _ testRow (resources.mkudfID "db" "schema" "old"));
    try (vm_compute; reflexivity); try (simpl; discriminate).
Defined.

(** X16. A change of name and of security together: the SET SECURE or UNSET
    SECURE statement comes second and names the function by its new name,
    since [Rename] has changed the builder; an error of the database on it
    is wrapped with the new identifier, which stays set. *)
Theorem UpdateUdf_rename_then_secure (EscapeString : string -> string)
    (DB : Type) (Exec : DB -> string -> DB * option error)
    (QueryRow : DB -> string -> DB * result snowflake.udf)
    (d : resources.ResourceData) (db db1 db2 : DB) (r : option error)
    (id : resources.udfID) :
  let newID := resources.DatabaseName id ++ "|" ++ resources.SchemaName id
                 ++ "|" ++ resources.name d in
  resources.udfIDFromString (resources.Id d) = Ok id ->
  resources.DatabaseName id <> EmptyString ->
  resources.SchemaName id <> EmptyString ->
  resources.HasChange d "name" = true ->
  resources.HasChange d "is_secure" = true ->
  Exec db ("ALTER FUNCTION " ++ qualifiedIn id (resources.Name id)
             ++ " () RENAME TO " ++ qualifiedIn id (resources.name d))
  = (db1, None) ->
  Exec db1 ("ALTER FUNCTION " ++ qualifiedIn id (resources.name d) ++ " () "
              ++ (if resources.is_secure d then "SET SECURE" else "UNSET SECURE"))
  = (db2, r) ->
  resources.UpdateUdf EscapeString DB Exec QueryRow d db
  = match r with
    | Some err =>
        (resources.SetId newID d, db2,
         Some (Wrapf err ((if resources.is_secure d
                           then "error setting secure for Udf "
                           else "error unsetting secure for Udf ") ++ newID)))
    | None => resources.ReadUdf DB QueryRow (resources.SetId newID d) db2
    end.
Proof.
  intros newID Hid Hd Hs Hn Hsec He1 He2. unfold resources.UpdateUdf.
  rewrite Hid. cbv zeta. fold (builderOfID id).
  rewrite (updateName_scoped EscapeString DB Exec id d db Hd Hs Hn), He1.
  fold newID.
  rewrite (updateSecure_scoped EscapeString DB Exec id (resources.name d)
             (resources.SetId newID d) db1 Hd Hs Hsec).
  cbn [resources.is_secure resources.Id resources.SetId]. rewrite He2.
  now destruct r.
Qed.

Lemma UpdateUdf_rename_then_secure_witness :
  snd (fst (resources.UpdateUdf escapeQuotes (list string) loggingExec
              (loggingQueryRow testRow)
              {| resources.Id := "db|schema|old"; resources.name := "new";
                 resources.database := "db"; resources.schema := "schema";
                 resources.or_replace := false; resources.is_secure := true;
                 resources.return_type := "VARIANT";
                 resources.language := EmptyString;
                 resources.argument := [("arg1", "OBJECT")];
                 resources.body := "return 1;";
                 resources.HasChange := fun _ => true |} []))
  = ["ALTER FUNCTION " ++ quoted "db" ++ "." ++ quoted "schema" ++ "."
       ++ quoted "old" ++ " () RENAME TO " ++ quoted "db" ++ "."
       ++ quoted "schema" ++ "." ++ quoted "new";
     "ALTER FUNCTION " ++ quoted "db" ++ "." ++ quoted "schema" ++ "."
       ++ quoted "new" ++ " () SET SECURE";
     "SHOW FUNCTIONS LIKE 'new' IN SCHEMA " ++ quoted "db" ++ "." ++ quoted "schema"].
Proof.
  rewrite (UpdateUdf_rename_then_secure escapeQuotes (list string) loggingExec
             (loggingQueryRow testRow) _ []
             ["ALTER FUNCTION " ++ quoted "db" ++ "." ++ quoted "schema" ++ "."
                ++ quoted "old" ++ " () RENAME TO " ++ quoted "db" ++ "."
                ++ quoted "schema" ++ "." ++ quoted "new"]
             ["ALTER FUNCTION " ++ quoted "db" ++ "." ++ quoted "schema" ++ "."
                ++ quoted "old" ++ " () RENAME TO " ++ quoted "db" ++ "."
                ++ quoted "schema" ++ "." ++ quoted "new";
              "ALTER FUNCTION " ++ quoted "db" ++ "." ++ quoted "schema" ++ "."
                ++ quoted "new" ++ " () SET SECURE"]
             None (resources.mkudfID "db" "schema" "old"));
    try (vm_compute; reflexivity); try (simpl; discriminate).
Defined.

(** X17. A change of security alone: one ALTER FUNCTION statement, SET
    SECURE when the configuration asks for a secure function and UNSET
    SECURE when it does not, on the name of the identifier and with an empty
    argument list, then [ReadUdf]. *)
Theorem UpdateUdf_secure (EscapeString : string -> string) (DB : Type)
    (Exec : DB -> string -> DB * option error)
    (QueryRow : DB -> string -> DB * result snowflake.udf)
    (d : resources.ResourceData) (db db1 : DB) (r : option error)
    (id : resources.udfID) :
  resources.udfIDFromString (resources.Id d) = Ok id ->
  resources.DatabaseName id <> EmptyString ->
  resources.SchemaName id <> EmptyString ->
  resources.HasChange d "name" = false ->
  resources.HasChange d "is_secure" = true ->
  Exec db ("ALTER FUNCTION " ++ qualifiedIn id (resources.Name id) ++ " () "
             ++ (if resources.is_secure d then "SET SECURE" else "UNSET SECURE"))
  = (db1, r) ->
  resources.UpdateUdf EscapeString DB Exec QueryRow d db
  = match r with
    | Some err =>
        (d, db1,
         Some (Wrapf err ((if resources.is_secure d
                           then "error setting secure for Udf "
                           else "error unsetting secure for Udf ")
                            ++ resources.Id d)))
    | None => resources.ReadUdf DB QueryRow d db1
    end.
Proof.
  intros Hid Hd Hs Hn Hsec He. unfold resources.UpdateUdf. rewrite Hid.
  cbv zeta. unfold resources.updateName. rewrite Hn. fold (builderOfID id).
  change (builderOfID id)
    with (snowflake.setName (resources.Name id) (builderOfID id)).
  rewrite (updateSecure_scoped EscapeString DB Exec id (resources.Name id)
             d db Hd Hs Hsec), He.
  now destruct r.
Qed.

Lemma UpdateUdf_secure_witness :
  resources.UpdateUdf escapeQuotes nat failingExec emptyQueryRow
    (exampleData "db|schema|fn" "fn" "is_secure") 0
  = (exampleData "db|schema|fn" "fn" "is_secure", 1,
     Some (Wrapf (driverError "statement refused")
             ("error unsetting secure for Udf " ++ "db|schema|fn"))).
Proof.
  rewrite (UpdateUdf_secure escapeQuotes nat failingExec emptyQueryRow
             (exampleData "db|schema|fn" "fn" "is_secure") 0 1
             (Some (driverError "statement refused"))
             (resources.mkudfID "db" "schema" "fn"));
    try (vm_compute; reflexivity); try (simpl; discriminate).
Defined.

(** X18. [DeleteUdf] sends the DROP FUNCTION statement of the name in the
    identifier with an empty argument list, whatever arguments the resource
    has.  When the database accepts it the identifier is cleared; when it
    refuses, the error comes back wrapped and the identifier stays. *)
Theorem DeleteUdf_statement (EscapeString : string -> string) (DB : Type)
    (Exec : DB -> string -> DB * option error)
    (d : resources.ResourceData) (db db1 : DB) (r : option error)
    (id : resources.udfID) :
  resources.udfIDFromString (resources.Id d) = Ok id ->
  resources.DatabaseName id <> EmptyString ->
  resources.SchemaName id <> EmptyString ->
  Exec db ("DROP FUNCTION " ++ qualifiedIn id (resources.Name id) ++ " ()")
  = (db1, r) ->
  resources.DeleteUdf EscapeString DB Exec d db
  = match r with
    | Some err =>
        (d, db1, Some (Wrapf err ("error deleting Udf " ++ resources.Id d)))
    | None => (resources.SetId EmptyString d, db1, None)
    end.
Proof.
  intros Hid Hd Hs He. unfold resources.DeleteUdf. rewrite Hid. cbv zeta.
  fold (builderOfID id). unfold snowflake.Drop.
  rewrite (proj2 (builderOfID_scoped id EmptyString Hd Hs)). cbv zeta.
  cbn [builderOfID snowflake.WithSchema snowflake.WithDB snowflake.Udf
       snowflake.arguments].
  change (snowflake.getArgumentTypesDefinitions EscapeString []) with "()".
  replace ("DROP FUNCTION " ++ qualifiedIn id (resources.Name id) ++ " " ++ "()")
    with ("DROP FUNCTION " ++ qualifiedIn id (resources.Name id) ++ " ()")
    by reflexivity.
  rewrite He. now destruct r.
Qed.

Lemma DeleteUdf_statement_witness :
  resources.DeleteUdf escapeQuotes (list string) loggingExec
    {| resources.Id := "db|schema|fn"; resources.name := "fn";
       resources.database := "db"; resources.schema := "schema";
       resources.or_replace := false; resources.is_secure := false;
       resources.return_type := "VARIANT"; resources.language := EmptyString;
       resources.argument := [("arg1", "OBJECT")];
       resources.body := "return 1;"; resources.HasChange := fun _ => false |} []
  = (resources.SetId EmptyString
       {| resources.Id := "db|schema|fn"; resources.name := "fn";
          resources.database := "db"; resources.schema := "schema";
          resources.or_replace := false; resources.is_secure := false;
          resources.return_type := "VARIANT"; resources.language := EmptyString;
          resources.argument := [("arg1", "OBJECT")];
          resources.body := "return 1;"; resources.HasChange := fun _ => false |},
     ["DROP FUNCTION " ++ quoted "db" ++ "." ++ quoted "schema" ++ "."
        ++ quoted "fn" ++ " ()"],
     None).
Proof.
  rewrite (DeleteUdf_statement escapeQuotes (list string) loggingExec _ []
             ["DROP FUNCTION " ++ quoted "db" ++ "." ++ quoted "schema" ++ "."
                ++ quoted "fn" ++ " ()"]
             None (resources.mkudfID "db" "schema" "fn"));
    try (vm_compute; reflexivity); try (simpl; discriminate).
Defined.

(** X19. An identifier that decodes to an empty database or an empty schema
    makes [DeleteUdf], and [UpdateUdf] when the name or the security has
    changed, return the missing-scope error of the builder before any
    statement is sent. *)
Theorem scopeless_id_stops_update_and_delete (EscapeString : string -> string)
    (DB : Type) (Exec : DB -> string -> DB * option error)
    (QueryRow : DB -> string -> DB * result snowflake.udf)
    (d : resources.ResourceData) (db : DB) (id : resources.udfID) :
  resources.udfIDFromString (resources.Id d) = Ok id ->
  resources.DatabaseName id = EmptyString \/ resources.SchemaName id = EmptyString ->
  resources.DeleteUdf EscapeString DB Exec d db
  = (d, db, Some snowflake.missingScope)
  /\ (resources.HasChange d "name" = true \/ resources.HasChange d "is_secure" = true ->
      resources.UpdateUdf EscapeString DB Exec QueryRow d db
      = (d, db, Some snowflake.missingScope)).
Proof.
  intros Hid Hscope.
  assert (Hq : forall n, snowflake.QualifiedName
                           (snowflake.setName n (builderOfID id))
                         = Err snowflake.missingScope)
    by (intros n; now apply QualifiedName_unscoped).
  split.
  - unfold resources.DeleteUdf. rewrite Hid. cbv zeta. fold (builderOfID id).
    unfold snowflake.Drop.
    change (builderOfID id)
      with (snowflake.setName (resources.Name id) (builderOfID id)).
    now rewrite Hq.
  - intros Hc. unfold resources.UpdateUdf. rewrite Hid. cbv zeta.
    fold (builderOfID id). unfold resources.updateName.
    destruct (resources.HasChange d "name") eqn:Hn.
    + unfold snowflake.Rename.
      change (builderOfID id)
        with (snowflake.setName (resources.Name id) (builderOfID id)).
      now rewrite Hq.
    + destruct Hc as [Hc | Hc]; [discriminate Hc|].
      unfold resources.updateSecure. rewrite Hc.
      unfold snowflake.Secure, snowflake.Unsecure.
      change (builderOfID id)
        with (snowflake.setName (resources.Name id) (builderOfID id)).
      rewrite Hq. now destruct (resources.is_secure d).
Qed.

Lemma scopeless_id_stops_update_and_delete_witness :
  resources.DeleteUdf escapeQuotes nat emptyExec
    (exampleData "|schema|fn" "new" "name") 0
  = (exampleData "|schema|fn" "new" "name", 0, Some snowflake.missingScope)
  /\ resources.UpdateUdf escapeQuotes nat emptyExec emptyQueryRow
       (exampleData "|schema|fn" "new" "name") 0
     = (exampleData "|schema|fn" "new" "name", 0, Some snowflake.missingScope).
Proof.
  destruct (scopeless_id_stops_update_and_delete escapeQuotes nat emptyExec
              emptyQueryRow (exampleData "|schema|fn" "new" "name") 0
              (resources.mkudfID EmptyString "schema" "fn")) as [Hd Hu].
  - vm_compute. reflexivity.
  - left. reflexivity.
  - split; [exact Hd | apply Hu; left; reflexivity].
Defined.

(* ================================================================== *)
(** ** The comparison of function bodies *)

Section BodyFacts.

Import strings.

Lemma string_ind2 (P : string -> Prop) :
  P EmptyString ->
  (forall c, P (str c)) ->
  (forall c1 c2 r, P r -> P (String c2 r) -> P (String c1 (String c2 r))) ->
  forall s, P s.
Proof.
  intros H0 H1 H2 s.
  assert (H : P s /\ forall c, P (String c s)).
  { induction s as [|x s [IH1 IH2]]; [split; [exact H0 | exact H1]|].
    split; [apply IH2|]. intros c. apply H2; [exact IH1 | apply IH2]. }
  exact (proj1 H).
Qed.

Lemma uniform_CRLF (r : string) :
  uniform (String CR (String LF r)) = String LF (uniform r).
Proof. reflexivity. Qed.

Lemma uniform_cons (c : ascii) (r : string) :
  (c =? CR)%char && startsWithLF r = false ->
  uniform (String c r) = String c (uniform r).
Proof.
  intros H. unfold uniform, ReplaceAll. cbn [replaceFrom HasPrefix str append].
  rewrite (Ascii.eqb_sym CR c).
  destruct (c =? CR)%char; [|reflexivity]. cbn [andb] in *.
  destruct r as [|b r]; [reflexivity|]. cbn [startsWithLF] in H.
  rewrite (Ascii.eqb_sym LF b), H. reflexivity.
Qed.

Lemma uniform_without_CR (s : string) :
  containsByte CR s = false -> uniform s = s.
Proof.
  induction s as [|c s IH]; [reflexivity|]. cbn [containsByte].
  intros H. apply orb_false_iff in H as [Hc Hs].
  rewrite uniform_cons by now rewrite Hc. now rewrite (IH Hs).
Qed.

Lemma uniform_toCRLF (s : string) :
  containsByte CR s = false -> uniform (toCRLF s) = s.
Proof.
  induction s as [|c s IH]; [reflexivity|]. cbn [containsByte toCRLF].
  intros H. apply orb_false_iff in H as [Hc Hs].
  destruct (c =? LF)%char eqn:E.
  - apply Ascii.eqb_eq in E. subst c. now rewrite uniform_CRLF, (IH Hs).
  - rewrite uniform_cons by now rewrite Hc. now rewrite (IH Hs).
Qed.

Lemma dropWhile_snoc (f : ascii -> bool) (y : string) (c : ascii) :
  dropWhile f (y ++ str c)
  = match dropWhile f y with
    | EmptyString => if f c then EmptyString else str c
    | String z r => String z r ++ str c
    end.
Proof.
  induction y as [|x y IH]; cbn [append dropWhile str]; [reflexivity|].
  destruct (f x); [exact IH | reflexivity].
Qed.

(** [TrimRight], read from the front of the string. *)
Lemma TrimRight_cons (c : ascii) (s cutset : string) :
  TrimRight (String c s) cutset
  = if (TrimRight s cutset =? EmptyString) && containsByte c cutset
    then EmptyString else String c (TrimRight s cutset).
Proof.
  unfold TrimRight. cbn [rev]. rewrite dropWhile_snoc.
  destruct (dropWhile (fun c0 => containsByte c0 cutset) (rev s)) as [|z r].
  - cbn [rev String.eqb andb]. now destruct (containsByte c cutset).
  - rewrite rev_snoc. cbn [rev].
    destruct (rev r ++ str z) as [|y t] eqn:E; [|reflexivity].
    destruct (rev r); discriminate E.
Qed.

Lemma TrimRight_allIn (s cutset : string) :
  allIn cutset s = true -> TrimRight s cutset = EmptyString.
Proof.
  induction s as [|c s IH]; [reflexivity|]. cbn [allIn].
  intros H. apply andb_true_iff in H as [Hc Hs].
  now rewrite TrimRight_cons, (IH Hs), Hc.
Qed.

Lemma TrimRight_clean (s cutset : string) :
  lastByteIn cutset s = false -> TrimRight s cutset = s.
Proof.
  unfold lastByteIn, TrimRight. intros H.
  destruct (rev s) as [|c r] eqn:E.
  - rewrite <- (rev_involutive s), E. reflexivity.
  - cbn [dropWhile]. rewrite H, <- E. apply rev_involutive.
Qed.

Lemma uniform_allIn (t : string) :
  allIn terminators t = true -> allIn terminators (uniform t) = true.
Proof.
  induction t as [| c | c1 c2 r IH1 IH2] using string_ind2; intros H.
  - reflexivity.
  - unfold str in *. rewrite uniform_cons by (cbn; now rewrite andb_false_r).
    exact H.
  - cbn [allIn] in H. apply andb_true_iff in H as [H1 H].
    destruct ((c1 =? CR)%char && startsWithLF (String c2 r)) eqn:E.
    + apply andb_true_iff in E as [E1 E2].
      apply Ascii.eqb_eq in E1, E2. subst c1 c2. rewrite uniform_CRLF.
      cbn [allIn] in H. apply andb_true_iff in H as [_ H].
      cbn [allIn]. now rewrite (IH1 H).
    + rewrite (uniform_cons _ _ E). cbn [allIn]. now rewrite H1, (IH2 H).
Qed.

(** The terminators at the end of a body leave no trace. *)
Lemma terminators_absorbed (s t : string) :
  allIn terminators t = true ->
  TrimRight (uniform (s ++ t)) terminators = TrimRight (uniform s) terminators.
Proof.
  intros Ht.
  assert (Hend : TrimRight (uniform t) terminators = EmptyString)
    by now apply TrimRight_allIn, uniform_allIn.
  induction s as [| c | c1 c2 r IH1 IH2] using string_ind2.
  - exact Hend.
  - unfold str. cbn [append].
    destruct ((c =? CR)%char && startsWithLF t) eqn:E.
    + apply andb_true_iff in E as [E1 E2]. apply Ascii.eqb_eq in E1. subst c.
      destruct t as [|b t]; [discriminate E2|]. cbn [startsWithLF] in E2.
      apply Ascii.eqb_eq in E2. subst b. rewrite uniform_CRLF.
      cbn [allIn] in Ht. apply andb_true_iff in Ht as [_ Ht].
      rewrite TrimRight_cons, (TrimRight_allIn _ _ (uniform_allIn t Ht)).
      reflexivity.
    + rewrite (uniform_cons _ _ E).
      rewrite (uniform_cons c EmptyString) by (cbn; now rewrite andb_false_r).
      now rewrite !TrimRight_cons, Hend.
  - cbn [append].
    destruct ((c1 =? CR)%char && (c2 =? LF)%char) eqn:E.
    + apply andb_true_iff in E as [E1 E2].
      apply Ascii.eqb_eq in E1, E2. subst c1 c2.
      rewrite !uniform_CRLF, !TrimRight_cons. now rewrite IH1.
    + rewrite (uniform_cons c1 (String c2 (r ++ t)) E).
      rewrite (uniform_cons c1 (String c2 r) E).
      rewrite !TrimRight_cons.
      change (String c2 (r ++ t)) with (String c2 r ++ t). now rewrite IH2.
Qed.

End BodyFacts.

(** X20. Semicolons, carriage returns and newlines at the end of a body
    make no difference: a body and the same body followed by any run of them
    are not reported as different, in either order. *)
Theorem DiffSuppress_ignores_trailing_terminators (k s t : string)
    (d : resources.ResourceData) :
  allIn (";" ++ str CR ++ str LF) t = true ->
  resources.udfBodyStatementDiffSuppress k (s ++ t) s d = true
  /\ resources.udfBodyStatementDiffSuppress k s (s ++ t) d = true.
Proof.
  intros Ht. unfold resources.udfBodyStatementDiffSuppress. cbv zeta.
  fold (uniform (s ++ t)). fold (uniform s). fold terminators.
  rewrite (terminators_absorbed s t Ht). split; apply String.eqb_refl.
Qed.

Lemma DiffSuppress_ignores_trailing_terminators_witness :
  resources.udfBodyStatementDiffSuppress "body"
    ("return 1" ++ (";" ++ str CR ++ str LF ++ str LF)) "return 1"
    (exampleData EmptyString "fn" EmptyString) = true
  /\ resources.udfBodyStatementDiffSuppress "body"
       "return 1" ("return 1" ++ (";" ++ str CR ++ str LF ++ str LF))
       (exampleData EmptyString "fn" EmptyString) = true.
Proof.
  apply DiffSuppress_ignores_trailing_terminators. reflexivity.
Defined.

(** X21. The style of the line endings makes no difference: a body written
    with newlines and the same body with a carriage return before each
    newline are not reported as different. *)
Theorem DiffSuppress_ignores_line_ending_style (k s : string)
    (d : resources.ResourceData) :
  strings.containsByte CR s = false ->
  resources.udfBodyStatementDiffSuppress k (toCRLF s) s d = true
  /\ resources.udfBodyStatementDiffSuppress k s (toCRLF s) d = true.
Proof.
  intros Hs. unfold resources.udfBodyStatementDiffSuppress. cbv zeta.
  fold (uniform (toCRLF s)). fold (uniform s).
  rewrite (uniform_toCRLF s Hs), (uniform_without_CR s Hs).
  split; apply String.eqb_refl.
Qed.

Lemma DiffSuppress_ignores_line_ending_style_witness :
  resources.udfBodyStatementDiffSuppress "body"
    ("var x = 1;" ++ str CR ++ str LF ++ "return x") 
    ("var x = 1;" ++ str LF ++ "return x")
    (exampleData EmptyString "fn" EmptyString) = true
  /\ resources.udfBodyStatementDiffSuppress "body"
       ("var x = 1;" ++ str LF ++ "return x")
       ("var x = 1;" ++ str CR ++ str LF ++ "return x")
       (exampleData EmptyString "fn" EmptyString) = true.
Proof.
  apply (DiffSuppress_ignores_line_ending_style "body"
           ("var x = 1;" ++ str LF ++ "return x")).
  reflexivity.
Defined.

(** X22. Nothing else is passed over: two bodies without carriage return
    that do not end with a semicolon or a newline are reported as equal only
    when they are the same string, byte for byte; a difference of case or of
    white space inside the body is reported. *)
Theorem DiffSuppress_exact_on_clean_bodies (k old new : string)
    (d : resources.ResourceData) :
  strings.containsByte CR old = false -> strings.containsByte CR new = false ->
  lastByteIn (";" ++ str CR ++ str LF) old = false ->
  lastByteIn (";" ++ str CR ++ str LF) new = false ->
  resources.udfBodyStatementDiffSuppress k old new d = (old =? new).
Proof.
  intros Ho Hn Lo Ln. unfold resources.udfBodyStatementDiffSuppress. cbv zeta.
  fold (uniform old). fold (uniform new).
  rewrite (uniform_without_CR old Ho), (uniform_without_CR new Hn).
  now rewrite (TrimRight_clean old _ Lo), (TrimRight_clean new _ Ln).
Qed.

Lemma DiffSuppress_exact_on_clean_bodies_witness :
  resources.udfBodyStatementDiffSuppress "body" "select  1" "SELECT 1"
    (exampleData EmptyString "fn" EmptyString) = false.
Proof.
  rewrite (DiffSuppress_exact_on_clean_bodies "body" "select  1" "SELECT 1");
    reflexivity.
Defined.
